(** * viewshed_generation.py: a shallow embedding of the ArcGIS batch script

    The script drives an external geoprocessing engine ([arcpy]).  The
    engine is modelled as a world state (environment settings, feature
    tables, in-memory feature layers, saved rasters, the trace of calls the
    script made) together with an oracle [ext_fails] that decides, for each
    external call, whether the engine raises.  Python numbers of type
    [float] are modelled as rationals [Q]; Python exceptions as [exn]. *)

From Stdlib Require Import String Ascii List ZArith QArith Bool Lia.
Import ListNotations.
Open Scope string_scope.
Open Scope list_scope.

(** ** Python values and helpers *)

(** The exceptions that can reach the script: the two raised by the script
    itself and the engine's [arcpy.ExecuteError]; all are subclasses of
    [Exception], which is what the script's handlers catch. *)
Inductive exn : Type :=
| RuntimeError (msg : string)
| ValueError (msg : string)
| ExecuteError (msg : string).

(** Python truthiness of an optional string setting ([None] or [""] is false). *)
Definition truthy (a : option string) : bool :=
  match a with
  | Some s => negb (String.eqb s "")
  | None => false
  end.

(** Python's [a or b]. *)
Definition py_or (a b : option string) : option string :=
  if truthy a then a else b.

(** [str] of a non-negative integer, in decimal. *)
Fixpoint n_digits (fuel : nat) (n : N) (acc : string) : string :=
  match fuel with
  | O => acc
  | S f =>
      let acc' := String (ascii_of_N (48 + N.modulo n 10)) acc in
      if N.eqb (N.div n 10) 0 then acc' else n_digits f (N.div n 10) acc'
  end.

Definition n_to_string (n : N) : string :=
  n_digits (S (N.to_nat (N.log2 n))) n "".

(** [str] of a Python [int]. *)
Definition z_to_string (z : Z) : string :=
  match z with
  | Z0 => "0"
  | Zpos p => n_to_string (Npos p)
  | Zneg p => String.append "-" (n_to_string (Npos p))
  end.

(** [int(x)] for a float [x]: truncation toward zero.  Python floats are
    modelled by [Q], that is by their finite values only: NaN and the
    infinities, on which [int] raises, are not represented. *)
Definition py_int (q : Q) : Z := Z.quot (Qnum q) (Zpos (Qden q)).

(** [float(s)] for a string: optional surrounding whitespace, an optional
    sign, decimal digits with an optional fractional part.  (Exponent forms,
    [inf], [nan] and digit underscores, which Python also accepts, are
    rejected here, and the result is the exact decimal value rather than
    the nearest double.  On blank strings both raise; on plain digit
    strings of at most 15 digits both give the same value.) *)
Definition is_space (c : ascii) : bool :=
  let n := nat_of_ascii c in orb (Nat.eqb n 32) (andb (9 <=? n)%nat (n <=? 13)%nat).

Definition is_digit (c : ascii) : bool :=
  let n := nat_of_ascii c in andb (48 <=? n)%nat (n <=? 57)%nat.

Fixpoint drop_spaces (l : list ascii) : list ascii :=
  match l with
  | c :: r => if is_space c then drop_spaces r else l
  | [] => []
  end.

Definition strip (l : list ascii) : list ascii := rev (drop_spaces (rev (drop_spaces l))).

Fixpoint take_digits (l : list ascii) : list ascii * list ascii :=
  match l with
  | c :: r =>
      if is_digit c then let (ds, rest) := take_digits r in (c :: ds, rest) else ([], l)
  | [] => ([], [])
  end.

Definition digits_value (ds : list ascii) : Z :=
  fold_left (fun acc c => 10 * acc + Z.of_nat (nat_of_ascii c - 48))%Z ds 0%Z.

Definition py_float_of_string (s : string) : option Q :=
  let l := strip (list_ascii_of_string s) in
  let '(sign, l1) :=
    match l with
    | c :: r => if Ascii.eqb c "-"%char then ((-1)%Z, r)
                else if Ascii.eqb c "+"%char then (1%Z, r) else (1%Z, l)
    | [] => (1%Z, l)
    end in
  let '(ip, l2) := take_digits l1 in
  let '(fp, l3) :=
    match l2 with
    | c :: r => if Ascii.eqb c "."%char then take_digits r else ([], l2)
    | [] => ([], [])
    end in
  match l3, ip ++ fp with
  | [], _ :: _ =>
      Some (Qmake (sign * digits_value (ip ++ fp)) (Pos.of_nat (Nat.pow 10 (length fp))))
  | _, _ => None
  end.

(** [s.split(";")]. *)
Fixpoint split_aux (sep : ascii) (s : string) (cur : string) : list string :=
  match s with
  | EmptyString => [cur]
  | String c s' =>
      if Ascii.eqb c sep then cur :: split_aux sep s' ""
      else split_aux sep s' (String.append cur (String c EmptyString))
  end.

Definition split_on (sep : ascii) (s : string) : list string := split_aux sep s "".

(** [os.path.join(a, b)] (POSIX form). *)
Definition path_join (a b : string) : string :=
  match b with
  | String "/"%char _ => b
  | _ =>
      if String.eqb a "" then b
      else if String.eqb (substring (String.length a - 1) 1 a) "/" then String.append a b
      else String.append a (String.append "/" b)
  end.

(** [str] of a SiteID value as the f-strings render it ([None] for a null). *)
Definition py_str_siteid (sid : option Z) : string :=
  match sid with
  | Some z => z_to_string z
  | None => "None"
  end.

(** ** The engine's data *)

Record row : Type := mkRow { objectid : Z; siteid : option Z; shape : Z }.

Record table : Type := mkTable { fields : list string; rows : list row }.

(** A feature layer made by [MakeFeatureLayer_management]: a source table
    and a where-clause. *)
Record layerdef : Type := mkLayer { ld_src : string; ld_where : string }.

(** The keyword arguments of [arcpy.sa.Viewshed2] that the script passes. *)
Record vs_args : Type := mkArgs {
  in_raster : string;
  in_observer_features : string;
  analysis_type : string;
  refractivity_coefficient : Q;
  surface_offset : Q;
  observer_offset : Q;
  outer_radius : Q }.

(** A computed raster: the analysis arguments and the layer the engine
    resolved [in_observer_features] to. *)
Record raster : Type := mkRaster { r_args : vs_args; r_observers : option layerdef }.

(** The messages the script logs (with [AddMessage], [AddError] or [print]),
    keeping the values interpolated in each f-string. *)
Inductive msg : Type :=
| MsgAddingField
| MsgFieldAdded
| MsgCalculating (sid : option Z) (off : Q)
| MsgCreated (path : string)
| MsgFailed (sid : option Z) (off : Q) (e : exn)
| MsgAllDone
| MsgScriptFailed (e : exn).

(** The calls the script makes, as recorded in the trace. *)
Inductive event : Type :=
| EvListFields (layer : string)
| EvAddField (layer name ftype : string)
| EvUpdateCursor (layer : string) (flds : list string)
| EvUpdateRow (layer : string) (r : row)
| EvSearchCursor (layer : string) (flds : list string)
| EvMakeFeatureLayer (src name where_clause : string)
| EvViewshed2 (a : vs_args) (observers : option layerdef)
| EvSave (path : string) (r : raster)
| EvDelete (name : string)
| EvAddMessage (m : msg)
| EvAddError (m : msg)
| EvPrint (m : msg).

Record world : Type := mkWorld {
  env_workspace : option string;
  env_scratchGDB : option string;
  tables : list (string * table);
  layers : list (string * layerdef);
  rasters : list (string * raster);
  trace : list event;
  params : list string;     (* GetParameterAsText(i) *)
  param_bool : bool }.      (* GetParameter(4) *)

Fixpoint lookup {A} (k : string) (l : list (string * A)) : option A :=
  match l with
  | [] => None
  | (k', v) :: r => if String.eqb k k' then Some v else lookup k r
  end.

Definition assoc_del {A} (k : string) (l : list (string * A)) : list (string * A) :=
  filter (fun p => negb (String.eqb k (fst p))) l.

Definition assoc_set {A} (k : string) (v : A) (l : list (string * A)) : list (string * A) :=
  (k, v) :: assoc_del k l.

Definition log (ev : event) (w : world) : world :=
  mkWorld (env_workspace w) (env_scratchGDB w) (tables w) (layers w) (rasters w)
    (trace w ++ [ev]) (params w) (param_bool w).

Definition set_workspace_to (v : option string) (w : world) : world :=
  mkWorld v (env_scratchGDB w) (tables w) (layers w) (rasters w)
    (trace w) (params w) (param_bool w).

Definition set_tables (ts : list (string * table)) (w : world) : world :=
  mkWorld (env_workspace w) (env_scratchGDB w) ts (layers w) (rasters w)
    (trace w) (params w) (param_bool w).

Definition set_layers (ls : list (string * layerdef)) (w : world) : world :=
  mkWorld (env_workspace w) (env_scratchGDB w) (tables w) ls (rasters w)
    (trace w) (params w) (param_bool w).

Definition set_rasters (rs : list (string * raster)) (w : world) : world :=
  mkWorld (env_workspace w) (env_scratchGDB w) (tables w) (layers w) rs
    (trace w) (params w) (param_bool w).

(** ** The state and exception monad *)

Inductive outcome (A : Type) : Type :=
| Ok (a : A)
| Raise (e : exn).
Arguments Ok {A} a.
Arguments Raise {A} e.

Definition M (A : Type) : Type := world -> outcome A * world.

Definition ret {A} (a : A) : M A := fun w => (Ok a, w).

Definition raise {A} (e : exn) : M A := fun w => (Raise e, w).

Definition bind {A B} (m : M A) (k : A -> M B) : M B :=
  fun w => match m w with
           | (Ok a, w') => k a w'
           | (Raise e, w') => (Raise e, w')
           end.

Notation "x <- m ;; k" := (bind m (fun x => k))
  (at level 61, m at next level, right associativity).
Notation "m ;; k" := (bind m (fun _ => k)) (at level 61, right associativity).

(** [try: body except Exception as e: handler(e)]. *)
Definition try_except {A} (body : M A) (handler : exn -> M A) : M A :=
  fun w => match body w with
           | (Ok a, w') => (Ok a, w')
           | (Raise e, w') => handler e w'
           end.

Definition get_world : M world := fun w => (Ok w, w).

(** ** The engine's where-clause semantics and concrete engine states *)

(** The rows a layer made with where-clause [wc] holds: those whose own
    (non-null) SiteID gives the same clause [SiteID = <value>]. *)
Definition selects (wc : string) (r : row) : bool :=
  match siteid r with
  | Some z => String.eqb wc (String.append "SiteID = " (z_to_string z))
  | None => false
  end.

Definition selected_rows (w : world) (ld : layerdef) : list row :=
  match lookup (ld_src ld) (tables w) with
  | Some t => filter (selects (ld_where ld)) (rows t)
  | None => []
  end.

(** An engine on which no call fails. *)
Definition engine_ok : world -> event -> option string := fun _ _ => None.

(** An engine on which every [Viewshed2] call fails. *)
Definition engine_viewshed_fails : world -> event -> option string :=
  fun _ ev => match ev with
              | EvViewshed2 _ _ => Some "ERROR 999999: Error executing function."
              | _ => None
              end.

(** A point layer [obs] without the SiteID field, two observers. *)
Definition obs_plain : table :=
  mkTable ["OBJECTID"; "Shape"] [mkRow 1 None 10; mkRow 2 None 20].

(** A point layer [obs] with a SiteID field whose values repeat. *)
Definition obs_dup_siteid : table :=
  mkTable ["OBJECTID"; "Shape"; "SiteID"] [mkRow 1 (Some 1%Z) 10; mkRow 2 (Some 1%Z) 20].

Definition world_with (ws : option string) (t : table) (ps : list string) : world :=
  mkWorld ws None [("obs", t)] [] [] [] ps false.

Definition w_plain : world := world_with (Some "g.gdb") obs_plain [].

Definition w_dup : world := world_with (Some "g.gdb") obs_dup_siteid [].

Definition w_nogdb : world := world_with None obs_plain [].

(** The tool parameters: DEM [dem], observer layer [obs], offset list [offsets],
    outer radius "100", over the layer without a SiteID field. *)
Definition w_tool (offsets dem obs : string) : world :=
  world_with (Some "g.gdb") obs_plain [dem; obs; offsets; "100"].

(** ** The script, against an engine whose failures are given by [ext_fails] *)

Section Script.

(** [ext_fails w ev = Some m]: the engine raises [ExecuteError m] when the
    script makes the call [ev] in world [w].  The logging calls
    ([AddMessage], [AddError], [print]) do not fail. *)
Variable ext_fails : world -> event -> option string.

(** An external call: recorded in the trace, then either raising or
    performing its effect. *)
Definition call {A} (ev : event) (eff : M A) : M A :=
  fun w => match ext_fails w ev with
           | Some m => (Raise (ExecuteError m), log ev w)
           | None => eff (log ev w)
           end.

Definition add_message (m : msg) : M unit := fun w => (Ok tt, log (EvAddMessage m) w).
Definition add_error (m : msg) : M unit := fun w => (Ok tt, log (EvAddError m) w).
Definition print (m : msg) : M unit := fun w => (Ok tt, log (EvPrint m) w).

Definition get_parameter_as_text (i : nat) : M string :=
  fun w => (Ok (nth i (params w) ""), w).

Definition get_parameter_4 : M bool := fun w => (Ok (param_bool w), w).

Definition no_dataset {A} (layer : string) : M A :=
  raise (ExecuteError (String.append "Dataset does not exist: " layer)).

(** [arcpy.ListFields(layer)], as the list of the fields' names. *)
Definition list_fields (layer : string) : M (list string) :=
  call (EvListFields layer) (fun w =>
    match lookup layer (tables w) with
    | Some t => (Ok (fields t), w)
    | None => no_dataset layer w
    end).

(** [arcpy.AddField_management(layer, name, ftype)]: the new field is null
    in every row. *)
Definition add_field (layer name ftype : string) : M unit :=
  call (EvAddField layer name ftype) (fun w =>
    match lookup layer (tables w) with
    | Some t =>
        (Ok tt, set_tables (assoc_set layer
                  (mkTable (fields t ++ [name])
                     (map (fun r => mkRow (objectid r) None (shape r)) (rows t)))
                  (tables w)) w)
    | None => no_dataset layer w
    end).

(** Opening a cursor: the rows of the table. *)
Definition open_cursor (ev : event) (layer : string) : M (list row) :=
  call ev (fun w =>
    match lookup layer (tables w) with
    | Some t => (Ok (rows t), w)
    | None => no_dataset layer w
    end).

Definition update_cursor (layer : string) (flds : list string) : M (list row) :=
  open_cursor (EvUpdateCursor layer flds) layer.

Definition search_cursor (layer : string) (flds : list string) : M (list row) :=
  open_cursor (EvSearchCursor layer flds) layer.

(** [cursor.updateRow(row)] on the [i]-th row of the cursor. *)
Definition update_row (layer : string) (i : nat) (r : row) : M unit :=
  call (EvUpdateRow layer r) (fun w =>
    match lookup layer (tables w) with
    | Some t =>
        (Ok tt, set_tables (assoc_set layer
                  (mkTable (fields t)
                     (firstn i (rows t) ++ r :: skipn (S i) (rows t)))
                  (tables w)) w)
    | None => no_dataset layer w
    end).

(** [arcpy.MakeFeatureLayer_management(src, name, where_clause)]. *)
Definition make_feature_layer (src name wc : string) : M unit :=
  call (EvMakeFeatureLayer src name wc) (fun w =>
    (Ok tt, set_layers (assoc_set name (mkLayer src wc) (layers w)) w)).

(** [arcpy.Delete_management(name)] on an in-memory layer. *)
Definition delete (name : string) : M unit :=
  call (EvDelete name) (fun w => (Ok tt, set_layers (assoc_del name (layers w)) w)).

(** [arcpy.sa.Viewshed2(...)]: the engine resolves the observer layer name. *)
Definition viewshed2 (a : vs_args) : M raster :=
  fun w =>
    let lo := lookup (in_observer_features a) (layers w) in
    call (EvViewshed2 a lo) (fun w' => (Ok (mkRaster a lo), w')) w.

(** [raster.save(path)]. *)
Definition save (r : raster) (path : string) : M unit :=
  call (EvSave path r) (fun w => (Ok tt, set_rasters (assoc_set path r (rasters w)) w)).

(** *** [generate_individual_viewsheds] *)

Inductive pyval : Type :=
| PyFloat (q : Q)
| PyStr (s : string).

(** [float(v)]. *)
Definition py_float (v : pyval) : M Q :=
  match v with
  | PyFloat q => ret q
  | PyStr s =>
      match py_float_of_string s with
      | Some q => ret q
      | None => raise (ValueError (String.append "could not convert string to float: " s))
      end
  end.

(** [[float(offset) for offset in observer_offsets]]. *)
Fixpoint floats (l : list pyval) : M (list Q) :=
  match l with
  | [] => ret []
  | v :: r => q <- py_float v ;; qs <- floats r ;; ret (q :: qs)
  end.

Definition temp_layer : string := "temp_observer_layer".

Definition where_clause (sid : option Z) : string :=
  String.append "SiteID = " (py_str_siteid sid).

(** [f"vshed_{site_id}_{int(offset)}m"]. *)
Definition output_name (sid : option Z) (off : Q) : string :=
  String.append "vshed_"
    (String.append (py_str_siteid sid)
       (String.append "_" (String.append (z_to_string (py_int off)) "m"))).

Definition refractivity (use_refraction : bool) : Q :=
  if use_refraction then Qmake 13 100 else 0%Q.

Definition leaf_args (dem : string) (radius : Q) (use_refraction : bool) (off : Q) : vs_args :=
  mkArgs dem temp_layer "FREQUENCY" (refractivity use_refraction) 0%Q off radius.

(** The [try] block of the offset loop. *)
Definition viewshed_try_body (dem : string) (radius : Q) (use_refraction : bool)
    (off : Q) (output_path : string) : M unit :=
  output_raster <- viewshed2 (leaf_args dem radius use_refraction off) ;;
  save output_raster output_path ;;
  add_message (MsgCreated output_path) ;;
  print (MsgCreated output_path).

Definition viewshed_handler (sid : option Z) (off : Q) (e : exn) : M unit :=
  add_error (MsgFailed sid off e) ;;
  print (MsgFailed sid off e).

(** One iteration of [for offset in observer_offsets]. *)
Definition offset_iteration (dem gdb : string) (radius : Q) (use_refraction : bool)
    (sid : option Z) (off : Q) : M unit :=
  let output_path := path_join gdb (output_name sid off) in
  add_message (MsgCalculating sid off) ;;
  print (MsgCalculating sid off) ;;
  try_except (viewshed_try_body dem radius use_refraction off output_path)
             (viewshed_handler sid off).

Fixpoint offsets_loop (dem gdb : string) (radius : Q) (use_refraction : bool)
    (sid : option Z) (offs : list Q) : M unit :=
  match offs with
  | [] => ret tt
  | off :: rest =>
      offset_iteration dem gdb radius use_refraction sid off ;;
      offsets_loop dem gdb radius use_refraction sid rest
  end.

(** [for row in cursor] over the observer points. *)
Fixpoint observers_loop (dem observer_layer gdb : string) (radius : Q)
    (use_refraction : bool) (offs : list Q) (rs : list row) : M unit :=
  match rs with
  | [] => ret tt
  | r :: rest =>
      let site_id := siteid r in
      make_feature_layer observer_layer temp_layer (where_clause site_id) ;;
      offsets_loop dem gdb radius use_refraction site_id offs ;;
      delete temp_layer ;;
      observers_loop dem observer_layer gdb radius use_refraction offs rest
  end.

(** [for row in cursor: row[1] = row[0]; cursor.updateRow(row)]. *)
Fixpoint populate_loop (layer : string) (rs : list row) (i : nat) : M unit :=
  match rs with
  | [] => ret tt
  | r :: rest =>
      update_row layer i (mkRow (objectid r) (Some (objectid r)) (shape r)) ;;
      populate_loop layer rest (S i)
  end.

Definition ensure_siteid (observer_layer : string) : M unit :=
  flds <- list_fields observer_layer ;;
  if existsb (String.eqb "SiteID") flds then ret tt
  else
    print MsgAddingField ;;
    add_field observer_layer "SiteID" "LONG" ;;
    rs <- update_cursor observer_layer ["OBJECTID"; "SiteID"] ;;
    populate_loop observer_layer rs 0 ;;
    print MsgFieldAdded.

Definition generate_individual_viewsheds (dem observer_layer : string)
    (observer_offsets : list pyval) (outer_radius : Q) (use_atmospheric_refraction : bool)
    : M unit :=
  w <- get_world ;;
  let current_gdb := py_or (env_workspace w) (env_scratchGDB w) in
  if negb (truthy current_gdb) then raise (RuntimeError "No current geodatabase is set.")
  else
    let gdb := match current_gdb with Some s => s | None => "" end in
    offs <- floats observer_offsets ;;
    ensure_siteid observer_layer ;;
    rs <- search_cursor observer_layer ["SiteID"; "SHAPE@"] ;;
    observers_loop dem observer_layer gdb outer_radius use_atmospheric_refraction offs rs ;;
    add_message MsgAllDone ;;
    print MsgAllDone.

(** *** [if __name__ == "__main__":] *)

Definition set_workspace : M unit :=
  fun w => (Ok tt, set_workspace_to (py_or (env_workspace w) (env_scratchGDB w)) w).

Definition main_body : M unit :=
  dem_input <- get_parameter_as_text 0 ;;
  observer_input <- get_parameter_as_text 1 ;;
  observer_offsets_input <- get_parameter_as_text 2 ;;
  radius_text <- get_parameter_as_text 3 ;;
  outer_radius <- py_float (PyStr radius_text) ;;
  use_atmospheric_refraction <- get_parameter_4 ;;
  let strs := if String.eqb observer_offsets_input "" then []
              else split_on ";"%char observer_offsets_input in
  observer_offsets <- floats (map PyStr strs) ;;
  if orb (String.eqb dem_input "") (String.eqb observer_input "") then
    raise (ValueError "Both DEM and Observer inputs are required.")
  else match observer_offsets with
  | [] => raise (ValueError "At least one observer offset must be provided.")
  | _ :: _ =>
      set_workspace ;;
      generate_individual_viewsheds dem_input observer_input
        (map PyFloat observer_offsets) outer_radius use_atmospheric_refraction
  end.

Definition main : M unit :=
  try_except main_body
    (fun e => add_error (MsgScriptFailed e) ;; print (MsgScriptFailed e) ;; raise e).


(** ** Observations on runs *)

(** The analysis-related calls of a trace: [Viewshed2] calls (with the layer
    the engine resolved) and save calls (with their path). *)
Inductive aev : Type :=
| AView (a : vs_args) (observers : option layerdef)
| ASave (path : string).

Definition aev_of (ev : event) : list aev :=
  match ev with
  | EvViewshed2 a lo => [AView a lo]
  | EvSave p _ => [ASave p]
  | _ => []
  end.

Definition alog (tr : list event) : list aev := flat_map aev_of tr.

(** [Viewshed2] calls in [tr]. *)
Definition viewshed_calls (tr : list event) : list (vs_args * option layerdef) :=
  flat_map (fun ev => match ev with EvViewshed2 a lo => [(a, lo)] | _ => [] end) tr.

(** The [updateRow] calls in [tr]. *)
Definition row_updates (tr : list event) : list event :=
  filter (fun ev => match ev with EvUpdateRow _ _ => true | _ => false end) tr.

(** The paths of the save calls in [tr]. *)
Definition saved_paths (tr : list event) : list string :=
  flat_map (fun ev => match ev with EvSave p _ => [p] | _ => [] end) tr.

(** The calls of the SiteID set-up. *)
Definition setup_event (ev : event) : bool :=
  match ev with
  | EvListFields _ | EvAddField _ _ _ | EvUpdateCursor _ _ | EvUpdateRow _ _ => true
  | _ => false
  end.

Definition has_siteid (t : table) : bool := existsb (String.eqb "SiteID") (fields t).

Definition populated (r : row) : row := mkRow (objectid r) (Some (objectid r)) (shape r).

(** The observer table once the SiteID set-up has run. *)
Definition table_after_setup (t : table) : table :=
  if has_siteid t then t else mkTable (fields t ++ ["SiteID"]) (map populated (rows t)).

(** An analysis call of one pair: the call, then possibly the save of its
    result under the generated path. *)
Definition pair_segment (dem gdb : string) (radius : Q) (refr : bool) (ld : layerdef)
    (sid : option Z) (off : Q) (seg : list aev) : Prop :=
  seg = [AView (leaf_args dem radius refr off) (Some ld)] \/
  seg = [AView (leaf_args dem radius refr off) (Some ld);
         ASave (path_join gdb (output_name sid off))].

(** The current observer's layer. *)
Definition observer_layer_of (observer_layer : string) (r : row) : layerdef :=
  mkLayer observer_layer (where_clause (siteid r)).

(** The analysis log of one (observer, offset) pair when no call fails. *)
Definition pair_log (dem observer_layer gdb : string) (radius : Q) (refr : bool)
    (r : row) (off : Q) : list aev :=
  [AView (leaf_args dem radius refr off) (Some (observer_layer_of observer_layer r));
   ASave (path_join gdb (output_name (siteid r) off))].

(** A string made of whitespace only (also the empty string): Python's
    [float] rejects it. *)
Definition blank (s : string) : bool := forallb is_space (list_ascii_of_string s).


(** The shape of the analysis log of a run of the nested loops over the rows
    [rs] and the offsets [offs]: one segment per (observer, offset) pair. *)
Definition loops_log (dem observer_layer gdb : string) (radius : Q) (refr : bool)
    (offs : list Q) (rs : list row) (l : list aev) : Prop :=
  exists segss,
    Forall2 (fun r segs =>
      Forall2 (pair_segment dem gdb radius refr (observer_layer_of observer_layer r) (siteid r))
        offs segs) rs segss /\
    l = concat (map (@concat aev) segss).

Definition current_gdb_of (w : world) : string :=
  match py_or (env_workspace w) (env_scratchGDB w) with Some s => s | None => "" end.

Definition is_viewshed (ev : event) : bool :=
  match ev with EvViewshed2 _ _ => true | _ => false end.

Definition is_row_update (ev : event) : bool :=
  match ev with EvUpdateRow _ _ => true | _ => false end.

Definition is_save (ev : event) : bool :=
  match ev with EvSave _ _ => true | _ => false end.

(** [m] leaves the feature tables unchanged. *)
Definition keeps_tables {A} (m : M A) : Prop :=
  forall w, tables (snd (m w)) = tables w.

(** The refractivity coefficient and surface offset of a [Viewshed2] call. *)
Definition refraction_ok (use_refraction : bool) (ev : event) : Prop :=
  match ev with
  | EvViewshed2 a _ =>
      refractivity_coefficient a = (if use_refraction then Qmake 13 100 else 0%Q) /\
      surface_offset a = 0%Q
  | _ => True
  end.

(** The world after the two progress messages of an offset iteration. *)
Definition calc_logged (sid : option Z) (off : Q) (w : world) : world :=
  log (EvPrint (MsgCalculating sid off)) (log (EvAddMessage (MsgCalculating sid off)) w).

(** The world after the [except] handler logged the failure [e]. *)
Definition failure_logged (sid : option Z) (off : Q) (e : exn) (w : world) : world :=
  log (EvPrint (MsgFailed sid off e)) (log (EvAddError (MsgFailed sid off e)) w).

(** The [Viewshed2] calls of an analysis log. *)
Definition views (l : list aev) : list (vs_args * option layerdef) :=
  flat_map (fun x => match x with AView a lo => [(a, lo)] | ASave _ => [] end) l.

(** The analysis calls of the nested loops, one per (observer, offset) pair. *)
Definition expected_calls (dem observer_layer : string) (radius : Q) (refr : bool)
    (offs : list Q) (rs : list row) : list (vs_args * option layerdef) :=
  flat_map (fun r => map (fun off => (leaf_args dem radius refr off,
                                      Some (observer_layer_of observer_layer r))) offs) rs.

(** The trace grows by events satisfying [P]. *)
Definition extends (P : event -> Prop) {A} (m : M A) : Prop :=
  forall w, exists d, trace (snd (m w)) = trace w ++ d /\ Forall P d.

(** [m] leaves the component [f] of the world unchanged. *)
Definition keeps {B} (f : world -> B) {A} (m : M A) : Prop :=
  forall w, f (snd (m w)) = f w.

(** *** Traces only grow *)

Lemma extends_ret P {A} (a : A) : extends P (ret a).
Proof. intros w; exists []; simpl; rewrite app_nil_r; auto. Qed.

Lemma extends_raise P {A} e : extends P (@raise A e).
Proof. intros w; exists []; simpl; rewrite app_nil_r; auto. Qed.

Lemma extends_get P : extends P get_world.
Proof. intros w; exists []; simpl; rewrite app_nil_r; auto. Qed.

Lemma extends_bind P {A B} (m : M A) (k : A -> M B) :
  extends P m -> (forall a, extends P (k a)) -> extends P (bind m k).
Proof.
  intros Hm Hk w. unfold bind. destruct (Hm w) as [d1 [E1 F1]].
  destruct (m w) as [[a|e] w'] eqn:Em; simpl in *.
  - destruct (Hk a w') as [d2 [E2 F2]]. exists (d1 ++ d2).
    rewrite E2, E1, app_assoc. split; [reflexivity | apply Forall_app; auto].
  - exists d1; auto.
Qed.

Lemma extends_try P {A} (m : M A) (h : exn -> M A) :
  extends P m -> (forall e, extends P (h e)) -> extends P (try_except m h).
Proof.
  intros Hm Hh w. unfold try_except. destruct (Hm w) as [d1 [E1 F1]].
  destruct (m w) as [[a|e] w'] eqn:Em; simpl in *.
  - exists d1; auto.
  - destruct (Hh e w') as [d2 [E2 F2]]. exists (d1 ++ d2).
    rewrite E2, E1, app_assoc. split; [reflexivity | apply Forall_app; auto].
Qed.

Lemma extends_call P {A} ev (eff : M A) :
  P ev -> extends P eff -> extends P (call ev eff).
Proof.
  intros Hp He w. unfold call. destruct (ext_fails w ev).
  - exists [ev]. simpl. auto.
  - destruct (He (log ev w)) as [d [E F]]. exists (ev :: d).
    rewrite E. simpl. rewrite <- app_assoc. auto.
Qed.

Lemma extends_add_message P m : P (EvAddMessage m) -> extends P (add_message m).
Proof. intros H w; exists [EvAddMessage m]; simpl; auto. Qed.

Lemma extends_add_error P m : P (EvAddError m) -> extends P (add_error m).
Proof. intros H w; exists [EvAddError m]; simpl; auto. Qed.

Lemma extends_print P m : P (EvPrint m) -> extends P (print m).
Proof. intros H w; exists [EvPrint m]; simpl; auto. Qed.

(** The effect of a table-reading or table-writing call leaves the trace alone. *)
Ltac eff_trace :=
  intros ?w; simpl;
  repeat match goal with |- context [match ?x with _ => _ end] => destruct x end;
  simpl; exists []; rewrite app_nil_r; auto.

(** *** Growth of the trace along the script *)

Section Growth.

Variable P : event -> Prop.
Hypothesis HP :
  forall ev, is_viewshed ev = false -> is_row_update ev = false -> is_save ev = false -> P ev.

Lemma extends_list_fields l : extends P (list_fields l).
Proof. apply extends_call; [apply HP; reflexivity | eff_trace]. Qed.

Lemma extends_add_field l n ty : extends P (add_field l n ty).
Proof. apply extends_call; [apply HP; reflexivity | eff_trace]. Qed.

Lemma extends_open_cursor ev l :
  is_viewshed ev = false -> is_row_update ev = false -> is_save ev = false ->
  extends P (open_cursor ev l).
Proof. intros H H' H''; apply extends_call; [apply HP; assumption | eff_trace]. Qed.

Lemma extends_update_row l i r : P (EvUpdateRow l r) -> extends P (update_row l i r).
Proof. intros H; apply extends_call; [exact H | eff_trace]. Qed.

Lemma extends_make_feature_layer src n wc : extends P (make_feature_layer src n wc).
Proof. apply extends_call; [apply HP; reflexivity | eff_trace]. Qed.

Lemma extends_delete n : extends P (delete n).
Proof. apply extends_call; [apply HP; reflexivity | eff_trace]. Qed.

Lemma extends_save r p : P (EvSave p r) -> extends P (save r p).
Proof. intros H; apply extends_call; [exact H | eff_trace]. Qed.

Lemma extends_viewshed2 a : (forall lo, P (EvViewshed2 a lo)) -> extends P (viewshed2 a).
Proof. intros H w. unfold viewshed2. apply extends_call; [apply H | eff_trace]. Qed.

Lemma extends_populate_loop l rs i :
  (forall r, P (EvUpdateRow l r)) -> extends P (populate_loop l rs i).
Proof.
  intros HU; revert i; induction rs as [|r rs IH]; intros i; simpl.
  - apply extends_ret.
  - apply extends_bind; [apply extends_update_row, HU | intros; apply IH].
Qed.

Lemma extends_ensure_siteid l :
  (forall r, P (EvUpdateRow l r)) -> extends P (ensure_siteid l).
Proof.
  intros HU.
  unfold ensure_siteid. apply extends_bind; [apply extends_list_fields | intros flds].
  destruct (existsb _ flds); [apply extends_ret |].
  apply extends_bind; [apply extends_print, HP; reflexivity | intros _].
  apply extends_bind; [apply extends_add_field | intros _].
  apply extends_bind; [apply extends_open_cursor; reflexivity | intros rs].
  apply extends_bind; [apply extends_populate_loop, HU | intros _].
  apply extends_print, HP; reflexivity.
Qed.

Lemma extends_floats l : extends P (floats l).
Proof.
  induction l as [|v l IH]; simpl; [apply extends_ret |].
  apply extends_bind; [| intros q; apply extends_bind; [exact IH | intros; apply extends_ret]].
  destruct v as [q|str]; simpl; [apply extends_ret |].
  destruct (py_float_of_string str); [apply extends_ret | apply extends_raise].
Qed.

Section Loops.

Variables (dem observer_layer gdb : string) (radius : Q) (refr : bool).
Hypothesis HV : forall off lo, P (EvViewshed2 (leaf_args dem radius refr off) lo).
Hypothesis HS : forall p r, P (EvSave p r).

Lemma extends_offset_iteration sid off :
  extends P (offset_iteration dem gdb radius refr sid off).
Proof.
  unfold offset_iteration.
  apply extends_bind; [apply extends_add_message, HP; reflexivity | intros _].
  apply extends_bind; [apply extends_print, HP; reflexivity | intros _].
  apply extends_try.
  - unfold viewshed_try_body.
    apply extends_bind; [apply extends_viewshed2, HV | intros r].
    apply extends_bind; [apply extends_save, HS | intros _].
    apply extends_bind; [apply extends_add_message, HP; reflexivity | intros _].
    apply extends_print, HP; reflexivity.
  - intros e. unfold viewshed_handler.
    apply extends_bind; [apply extends_add_error, HP; reflexivity | intros _].
    apply extends_print, HP; reflexivity.
Qed.

Lemma extends_offsets_loop sid offs :
  extends P (offsets_loop dem gdb radius refr sid offs).
Proof.
  induction offs as [|o offs IH]; simpl; [apply extends_ret |].
  apply extends_bind; [apply extends_offset_iteration | intros; exact IH].
Qed.

Lemma extends_observers_loop offs rs :
  extends P (observers_loop dem observer_layer gdb radius refr offs rs).
Proof.
  induction rs as [|r rs IH]; simpl; [apply extends_ret |].
  apply extends_bind; [apply extends_make_feature_layer | intros _].
  apply extends_bind; [apply extends_offsets_loop | intros _].
  apply extends_bind; [apply extends_delete | intros; exact IH].
Qed.

End Loops.

Lemma extends_generate dem observer_layer offsets radius refr :
  (forall off lo, P (EvViewshed2 (leaf_args dem radius refr off) lo)) ->
  (forall r, P (EvUpdateRow observer_layer r)) ->
  (forall p r, P (EvSave p r)) ->
  extends P (generate_individual_viewsheds dem observer_layer offsets radius refr).
Proof.
  intros HV HU HS. unfold generate_individual_viewsheds.
  apply extends_bind; [apply extends_get | intros w].
  destruct (negb _); [apply extends_raise |].
  apply extends_bind; [apply extends_floats | intros offs].
  apply extends_bind; [apply extends_ensure_siteid, HU | intros _].
  apply extends_bind; [apply extends_open_cursor; reflexivity | intros rs].
  apply extends_bind; [apply extends_observers_loop; assumption | intros _].
  apply extends_bind; [apply extends_add_message, HP; reflexivity | intros _].
  apply extends_print, HP; reflexivity.
Qed.

End Growth.

(** *** The offset loop never raises *)

Lemma offset_iteration_ok dem gdb radius refr sid off w :
  fst (offset_iteration dem gdb radius refr sid off w) = Ok tt.
Proof.
  unfold offset_iteration, bind, add_message, print, try_except.
  destruct (viewshed_try_body _ _ _ _ _ _) as [[[]|e] w']; reflexivity.
Qed.

Lemma offsets_loop_ok dem gdb radius refr sid offs w :
  fst (offsets_loop dem gdb radius refr sid offs w) = Ok tt.
Proof.
  revert w; induction offs as [|o offs IH]; intros w; simpl; [reflexivity |].
  unfold bind at 1. 
  pose proof (offset_iteration_ok dem gdb radius refr sid o w) as H.
  destruct (offset_iteration _ _ _ _ _ _ w) as [r w']; simpl in H; subst r. apply IH.
Qed.

(** *** Parsing makes no call *)

Lemma py_float_pure v w : exists r, py_float v w = (r, w).
Proof. destruct v as [q|str]; simpl; [| destruct (py_float_of_string str)]; eexists; reflexivity. Qed.

Lemma floats_pure l w : exists r, floats l w = (r, w).
Proof.
  induction l as [|v l IH]; simpl; [eexists; reflexivity |].
  unfold bind at 1. destruct (py_float_pure v w) as [[q|e] E]; rewrite E; [| eexists; reflexivity].
  unfold bind. destruct IH as [[qs|e] E']; rewrite E'; eexists; reflexivity.
Qed.

(** The script body raises without any call when it rejects its parameters. *)
Lemma main_body_rejects w
  (Hrej : nth 0 (params w) "" = "" \/ nth 1 (params w) "" = "" \/ nth 2 (params w) "" = "") :
  exists e, main_body w = (Raise e, w).
Proof.
  unfold main_body, bind, get_parameter_as_text, get_parameter_4, ret.
  destruct (py_float_pure (PyStr (nth 3 (params w) "")) w) as [[q|e] E]; rewrite E;
    [| eexists; reflexivity].
  match goal with |- context [floats ?l w] => destruct (floats_pure l w) as [[qs|e] Ef] end;
    rewrite Ef; [| eexists; reflexivity].
  destruct (orb _ _) eqn:Eo; [eexists; reflexivity |].
  apply orb_false_iff in Eo as [E0 E1].
  destruct Hrej as [H|[H|H]].
  - rewrite H in E0; discriminate.
  - rewrite H in E1; discriminate.
  - rewrite H in Ef. simpl in Ef. injection Ef as <-. simpl. eexists; reflexivity.
Qed.

Lemma main_logs_rejection w e :
  main_body w = (Raise e, w) ->
  main w = (Raise e, log (EvPrint (MsgScriptFailed e)) (log (EvAddError (MsgScriptFailed e)) w)).
Proof. intros H. unfold main, try_except. rewrite H. reflexivity. Qed.

(** *** Stepping through calls that succeed *)

Lemma bind_ok {A B} (m : M A) (k : A -> M B) w a w' :
  m w = (Ok a, w') -> bind m k w = k a w'.
Proof. intros H; unfold bind; rewrite H; reflexivity. Qed.

Lemma call_ok {A} ev (eff : M A) w : ext_fails w ev = None -> call ev eff w = eff (log ev w).
Proof. intros H; unfold call; rewrite H; reflexivity. Qed.

Lemma lookup_assoc_set {A} k (v : A) l : lookup k (assoc_set k v l) = Some v.
Proof. simpl; rewrite String.eqb_refl; reflexivity. Qed.

Lemma row_updates_app tr tr' : row_updates (tr ++ tr') = row_updates tr ++ row_updates tr'.
Proof. apply filter_app. Qed.

Lemma row_updates_none tr d :
  Forall (fun ev => is_row_update ev = false) d -> row_updates (tr ++ d) = row_updates tr.
Proof.
  intros F; rewrite row_updates_app.
  induction F as [|ev d H F IH]; [apply app_nil_r |].
  unfold row_updates in *; simpl; destruct ev; try discriminate; exact IH.
Qed.

Lemma firstn_skipn_at {A} (pre : list A) r rs :
  firstn (length pre) (pre ++ r :: rs) = pre /\ skipn (S (length pre)) (pre ++ r :: rs) = rs.
Proof.
  induction pre as [|x pre IH]; [split; reflexivity |].
  destruct IH as [IH1 IH2]. split; [simpl; rewrite IH1; reflexivity | exact IH2].
Qed.

Section Setup.

Variable observer_layer : string.
Hypothesis Hsetup : forall w ev, setup_event ev = true -> ext_fails w ev = None.

Lemma populate_loop_spec fs pre rs i w :
  length pre = i ->
  lookup observer_layer (tables w) = Some (mkTable fs (pre ++ rs)) ->
  exists w', populate_loop observer_layer rs i w = (Ok tt, w') /\
    lookup observer_layer (tables w') = Some (mkTable fs (pre ++ map populated rs)) /\
    row_updates (trace w') =
      row_updates (trace w) ++ map (fun r => EvUpdateRow observer_layer (populated r)) rs.
Proof.
  revert pre i w; induction rs as [|r rs IH]; intros pre i w Hi Ht; simpl.
  - exists w. rewrite app_nil_r in *. split; [reflexivity | split; [exact Ht | rewrite app_nil_r; reflexivity]].
  - erewrite bind_ok; [| unfold update_row; rewrite call_ok by (apply Hsetup; reflexivity);
                         cbn [tables log]; rewrite Ht; reflexivity].
    destruct (firstn_skipn_at pre r rs) as [Ef Es]. subst i. cbn [rows fields].
    rewrite Ef, Es.
    destruct (IH (pre ++ [populated r]) (S (length pre))
                (set_tables (assoc_set observer_layer (mkTable fs (pre ++ populated r :: rs))
                   (tables (log (EvUpdateRow observer_layer (populated r)) w)))
                   (log (EvUpdateRow observer_layer (populated r)) w)))
      as [w' [E1 [E2 E3]]].
    + rewrite length_app; simpl; lia.
    + cbn [tables set_tables]. rewrite lookup_assoc_set, <- app_assoc. reflexivity.
    + exists w'. split; [exact E1 | split].
      * rewrite E2, <- app_assoc. reflexivity.
      * rewrite E3. cbn [trace set_tables log]. rewrite row_updates_app, <- app_assoc.
        reflexivity.
Qed.

Lemma ensure_siteid_spec t w :
  lookup observer_layer (tables w) = Some t ->
  exists w', ensure_siteid observer_layer w = (Ok tt, w') /\
    lookup observer_layer (tables w') = Some (table_after_setup t) /\
    row_updates (trace w') = row_updates (trace w) ++
      (if has_siteid t then []
       else map (fun r => EvUpdateRow observer_layer (populated r)) (rows t)).
Proof.
  intros Ht. unfold ensure_siteid.
  erewrite bind_ok; [| unfold list_fields; rewrite call_ok by (apply Hsetup; reflexivity);
                       cbn [tables log]; rewrite Ht; reflexivity].
  unfold table_after_setup, has_siteid.
  destruct (existsb _ (fields t)).
  - eexists; split; [reflexivity |]. split; [exact Ht |].
    cbn [trace log]. rewrite row_updates_app. reflexivity.
  - erewrite bind_ok; [| reflexivity].
    erewrite bind_ok; [| unfold add_field; rewrite call_ok by (apply Hsetup; reflexivity);
                         cbn [tables log]; rewrite Ht; reflexivity].
    erewrite bind_ok; [| unfold update_cursor, open_cursor;
                         rewrite call_ok by (apply Hsetup; reflexivity);
                         cbn [tables log set_tables]; rewrite lookup_assoc_set; reflexivity].
    cbv beta. cbn [rows].
    match goal with |- context [bind (populate_loop _ _ 0) _ ?w1] =>
      destruct (populate_loop_spec (fields t ++ ["SiteID"]) [] 
                  (map (fun r => mkRow (objectid r) None (shape r)) (rows t)) 0 w1)
        as [w' [E1 [E2 E3]]] end.
    + reflexivity.
    + cbn [tables log set_tables]. rewrite lookup_assoc_set. reflexivity.
    + erewrite bind_ok; [| exact E1].
      eexists; split; [reflexivity |]. split.
      * cbn [tables log]. rewrite E2, map_map. reflexivity.
      * cbn [trace log]. rewrite row_updates_app, E3, map_map. cbn [trace log set_tables].
        rewrite !row_updates_app. cbn [row_updates filter app]. rewrite !app_nil_r.
        reflexivity.
Qed.

End Setup.

(** *** The analysis part leaves the feature tables alone *)

Lemma keeps_ret {A} (a : A) : keeps_tables (ret a).
Proof. intros w; reflexivity. Qed.

Lemma keeps_bind {A B} (m : M A) (k : A -> M B) :
  keeps_tables m -> (forall a, keeps_tables (k a)) -> keeps_tables (bind m k).
Proof.
  intros Hm Hk w. unfold bind. specialize (Hm w).
  destruct (m w) as [[a|e] w'] eqn:Em; simpl in *; [rewrite Hk |]; exact Hm.
Qed.

Lemma keeps_try {A} (m : M A) (h : exn -> M A) :
  keeps_tables m -> (forall e, keeps_tables (h e)) -> keeps_tables (try_except m h).
Proof.
  intros Hm Hh w. unfold try_except. specialize (Hm w).
  destruct (m w) as [[a|e] w'] eqn:Em; simpl in *; [| rewrite Hh]; exact Hm.
Qed.

Lemma keeps_call {A} ev (eff : M A) : keeps_tables eff -> keeps_tables (call ev eff).
Proof. intros He w. unfold call. destruct (ext_fails w ev); [reflexivity | exact (He (log ev w))]. Qed.

Lemma keeps_logging m :
  keeps_tables (add_message m) /\ keeps_tables (add_error m) /\ keeps_tables (print m).
Proof. repeat split; intros w; reflexivity. Qed.

Lemma keeps_offsets_loop dem gdb radius refr sid offs :
  keeps_tables (offsets_loop dem gdb radius refr sid offs).
Proof.
  induction offs as [|o offs IH]; simpl; [apply keeps_ret |].
  apply keeps_bind; [| intros; exact IH].
  unfold offset_iteration.
  apply keeps_bind; [apply keeps_logging | intros _].
  apply keeps_bind; [apply keeps_logging | intros _].
  apply keeps_try.
  - unfold viewshed_try_body.
    apply keeps_bind; [intros w; unfold viewshed2; apply keeps_call; intros w'; reflexivity
                      | intros r].
    apply keeps_bind; [apply keeps_call; intros w; reflexivity | intros _].
    apply keeps_bind; [apply keeps_logging | intros _]. apply keeps_logging.
  - intros e; unfold viewshed_handler.
    apply keeps_bind; [apply keeps_logging | intros _]. apply keeps_logging.
Qed.

Lemma keeps_observers_loop dem observer_layer gdb radius refr offs rs :
  keeps_tables (observers_loop dem observer_layer gdb radius refr offs rs).
Proof.
  induction rs as [|r rs IH]; simpl; [apply keeps_ret |].
  apply keeps_bind; [apply keeps_call; intros w; reflexivity | intros _].
  apply keeps_bind; [apply keeps_offsets_loop | intros _].
  apply keeps_bind; [apply keeps_call; intros w; reflexivity | intros; exact IH].
Qed.

Lemma keeps_search_cursor l flds : keeps_tables (search_cursor l flds).
Proof.
  apply keeps_call. intros w. simpl. destruct (lookup l (tables w)); reflexivity.
Qed.

Lemma floats_map_PyFloat qs w : floats (map PyFloat qs) w = (Ok qs, w).
Proof.
  revert w; induction qs as [|q qs IH]; intros w; simpl; [reflexivity |].
  unfold bind at 1. simpl. unfold bind. rewrite IH. reflexivity.
Qed.

(** *** The analysis log of the nested loops *)

Lemma alog_snoc tr ev : alog (tr ++ [ev]) = alog tr ++ aev_of ev.
Proof. unfold alog; rewrite flat_map_app; simpl; rewrite app_nil_r; reflexivity. Qed.

Lemma alog_app tr d : alog (tr ++ d) = alog tr ++ alog d.
Proof. apply flat_map_app. Qed.

Lemma bind_raise {A B} (m : M A) (k : A -> M B) w e w' :
  m w = (Raise e, w') -> bind m k w = (Raise e, w').
Proof. intros H; unfold bind; rewrite H; reflexivity. Qed.

Lemma offset_iteration_log dem gdb radius refr ld sid off w :
  lookup temp_layer (layers w) = Some ld ->
  fst (offset_iteration dem gdb radius refr sid off w) = Ok tt /\
  layers (snd (offset_iteration dem gdb radius refr sid off w)) = layers w /\
  exists seg, pair_segment dem gdb radius refr ld sid off seg /\
    alog (trace (snd (offset_iteration dem gdb radius refr sid off w))) = alog (trace w) ++ seg.
Proof.
  intros Hl.
  unfold offset_iteration, viewshed_try_body, viewshed_handler, try_except, bind,
    add_message, print, add_error, viewshed2, save, call.
  cbn [layers log in_observer_features leaf_args]. rewrite Hl.
  destruct (ext_fails _ (EvViewshed2 _ _));
    [| destruct (ext_fails _ (EvSave _ _))];
    cbn [fst snd layers log trace set_rasters];
    (split; [reflexivity | split; [reflexivity |]]);
    rewrite ?alog_snoc; cbn [aev_of]; rewrite ?app_nil_r, <- ?app_assoc.
  - eexists; split; [left; reflexivity | reflexivity].
  - eexists; split; [right; reflexivity | reflexivity].
  - eexists; split; [right; reflexivity | reflexivity].
Qed.

Lemma offsets_loop_log dem gdb radius refr ld sid offs w :
  lookup temp_layer (layers w) = Some ld ->
  fst (offsets_loop dem gdb radius refr sid offs w) = Ok tt /\
  layers (snd (offsets_loop dem gdb radius refr sid offs w)) = layers w /\
  exists segs, Forall2 (pair_segment dem gdb radius refr ld sid) offs segs /\
    alog (trace (snd (offsets_loop dem gdb radius refr sid offs w))) =
      alog (trace w) ++ concat segs.
Proof.
  revert w; induction offs as [|off offs IH]; intros w Hl; simpl.
  - split; [reflexivity | split; [reflexivity |]].
    exists []; split; [constructor | rewrite app_nil_r; reflexivity].
  - destruct (offset_iteration_log dem gdb radius refr ld sid off w Hl) as [H1 [H2 [seg [Hs H3]]]].
    destruct (offset_iteration dem gdb radius refr sid off w) as [r w1] eqn:E.
    cbn [fst snd] in *. subst r. erewrite bind_ok; [| exact E].
    rewrite <- H2 in Hl. destruct (IH w1 Hl) as [G1 [G2 [segs [Gs G3]]]].
    split; [exact G1 | split; [rewrite G2; exact H2 |]].
    exists (seg :: segs). split; [constructor; assumption |].
    rewrite G3, H3, <- app_assoc. reflexivity.
Qed.

Lemma make_feature_layer_ok src n wc w w1 :
  make_feature_layer src n wc w = (Ok tt, w1) ->
  lookup n (layers w1) = Some (mkLayer src wc) /\ alog (trace w1) = alog (trace w).
Proof.
  unfold make_feature_layer, call. destruct (ext_fails w _); intros H; [discriminate |].
  injection H as <-. cbn [layers trace set_layers log].
  rewrite lookup_assoc_set, alog_snoc, app_nil_r. auto.
Qed.

Lemma delete_ok n w w1 : delete n w = (Ok tt, w1) -> alog (trace w1) = alog (trace w).
Proof.
  unfold delete, call. destruct (ext_fails w _); intros H; [discriminate |].
  injection H as <-. cbn [trace set_layers log]. rewrite alog_snoc, app_nil_r. reflexivity.
Qed.

Lemma observers_loop_log dem observer_layer gdb radius refr offs rs w :
  fst (observers_loop dem observer_layer gdb radius refr offs rs w) = Ok tt ->
  exists l, alog (trace (snd (observers_loop dem observer_layer gdb radius refr offs rs w)))
              = alog (trace w) ++ l /\
    loops_log dem observer_layer gdb radius refr offs rs l.
Proof.
  revert w; induction rs as [|r rs IH]; intros w Hok; simpl in *.
  - exists []. split; [rewrite app_nil_r; reflexivity |]. exists []. split; constructor.
  - destruct (make_feature_layer observer_layer temp_layer (where_clause (siteid r)) w)
      as [[[]|e] w1] eqn:E1;
      [| rewrite (bind_raise _ _ _ _ _ E1) in Hok; discriminate].
    rewrite (bind_ok _ _ _ _ _ E1) in Hok |- *.
    destruct (make_feature_layer_ok _ _ _ _ _ E1) as [Hl1 Ha1].
    destruct (offsets_loop_log dem gdb radius refr _ (siteid r) offs w1 Hl1)
      as [H1 [_ [segs [Hs H3]]]].
    destruct (offsets_loop dem gdb radius refr (siteid r) offs w1) as [x w2] eqn:E2.
    cbn [fst snd] in *. subst x.
    rewrite (bind_ok _ _ _ _ _ E2) in Hok |- *.
    destruct (delete temp_layer w2) as [[[]|e] w3] eqn:E3;
      [| rewrite (bind_raise _ _ _ _ _ E3) in Hok; discriminate].
    rewrite (bind_ok _ _ _ _ _ E3) in Hok |- *.
    destruct (IH w3 Hok) as [l [Hl [segss [Hss Hc]]]].
    exists (concat segs ++ l). split.
    + rewrite Hl, (delete_ok _ _ _ E3), H3, Ha1, app_assoc. reflexivity.
    + exists (segs :: segss). split; [constructor; assumption |].
      rewrite Hc. reflexivity.
Qed.

(** A completed run: its observer table, and one analysis segment per pair. *)
Lemma generate_log dem observer_layer qs radius refr w :
  fst (generate_individual_viewsheds dem observer_layer (map PyFloat qs) radius refr w) = Ok tt ->
  let w' := snd (generate_individual_viewsheds dem observer_layer (map PyFloat qs) radius refr w) in
  exists t', lookup observer_layer (tables w') = Some t' /\
    exists l, alog (trace w') = alog (trace w) ++ l /\
      loops_log dem observer_layer (current_gdb_of w) radius refr qs (rows t') l.
Proof.
  intros Hok w'. subst w'. unfold generate_individual_viewsheds in *.
  rewrite (bind_ok _ _ _ _ _ (eq_refl : get_world w = (Ok w, w))) in Hok |- *. cbv beta in *.
  unfold current_gdb_of.
  destruct (negb (truthy _)); [discriminate |].
  rewrite (bind_ok _ _ _ _ _ (floats_map_PyFloat qs w)) in Hok |- *.
  destruct (ensure_siteid observer_layer w) as [[[]|e] w1] eqn:E1;
    [| rewrite (bind_raise _ _ _ _ _ E1) in Hok; discriminate].
  rewrite (bind_ok _ _ _ _ _ E1) in Hok |- *.
  assert (Ha1 : alog (trace w1) = alog (trace w)).
  { assert (HP0 : forall ev, is_viewshed ev = false -> is_row_update ev = false ->
                             is_save ev = false -> aev_of ev = []).
    { intros ev H1 H2 H3; destruct ev; try discriminate; reflexivity. }
    destruct (extends_ensure_siteid _ HP0 observer_layer (fun _ => eq_refl) w) as [d [Ed Fd]].
    rewrite E1 in Ed. cbn [snd] in Ed. rewrite Ed, alog_app.
    assert (alog d = []) as ->; [| apply app_nil_r].
    clear - Fd. induction Fd as [|ev d Hev Fd IHd]; [reflexivity |].
    unfold alog in *; simpl; rewrite Hev; exact IHd. }
  destruct (search_cursor observer_layer ["SiteID"; "SHAPE@"] w1) as [[rs|e] w2] eqn:E2;
    [| rewrite (bind_raise _ _ _ _ _ E2) in Hok; discriminate].
  assert (Hw2 : exists t1, lookup observer_layer (tables w1) = Some t1 /\ rs = rows t1 /\
                 w2 = log (EvSearchCursor observer_layer ["SiteID"; "SHAPE@"]) w1).
  { revert E2. unfold search_cursor, open_cursor, call.
    destruct (ext_fails w1 _); [discriminate |]. cbn [tables log].
    destruct (lookup observer_layer (tables w1)) as [t1|]; [| discriminate].
    intros H; injection H as <- <-. eauto. }
  destruct Hw2 as [t1 [Ht1 [-> ->]]].
  rewrite (bind_ok _ _ _ _ _ E2) in Hok |- *. cbv beta in Hok |- *.
  match goal with |- context [bind (observers_loop ?d ?o ?g ?ra ?re ?of ?r0) _ ?w0] =>
    pose proof (keeps_observers_loop d o g ra re of r0 w0) as Hk;
    destruct (observers_loop d o g ra re of r0 w0) as [[[]|e] w3] eqn:E3 end;
    [| rewrite (bind_raise _ _ _ _ _ E3) in Hok; discriminate].
  pose proof (observers_loop_log _ _ _ _ _ _ _ _ (f_equal fst E3)) as Hlog.
  rewrite E3 in Hlog. cbn [fst snd] in Hlog, Hk.
  rewrite (bind_ok _ _ _ _ _ E3).
  exists t1. split.
  - cbn [snd bind add_message print tables log]. rewrite Hk. exact Ht1.
  - destruct Hlog as [l [Hl Hll]]. exists l. split; [| exact Hll].
    cbn [snd bind add_message print trace log]. rewrite !alog_snoc, Hl. cbn [aev_of trace log].
    rewrite alog_snoc, Ha1. cbn [aev_of]. rewrite !app_nil_r. reflexivity.
Qed.

Lemma viewshed_calls_alog tr : viewshed_calls tr = views (alog tr).
Proof. induction tr as [|ev tr IH]; [reflexivity |]. destruct ev; simpl; try rewrite IH; reflexivity. Qed.

Lemma views_app l l' : views (l ++ l') = views l ++ views l'.
Proof. apply flat_map_app. Qed.

Lemma loops_log_views dem observer_layer gdb radius refr offs rs l :
  loops_log dem observer_layer gdb radius refr offs rs l ->
  views l = expected_calls dem observer_layer radius refr offs rs.
Proof.
  intros [segss [Hss ->]]. unfold expected_calls.
  induction Hss as [|r segs rs segss Hs Hss IH]; [reflexivity |].
  simpl. rewrite views_app, IH. f_equal.
  clear - Hs. induction Hs as [|off seg offs segs Hp Hs IH]; [reflexivity |].
  simpl. rewrite views_app, IH.
  destruct Hp as [-> | ->]; reflexivity.
Qed.

(** ** Claims *)

(** C1: when the [Viewshed2] call or the save of one (observer, offset)
    pair raises [e], the exception is caught, the failure is logged with
    [AddError] and [print], and the loop goes on with the next offset from
    there; when the pair is the last offset of its observer, the offset loop
    completes, so the observer loop goes on (with [Delete] and the next
    observer). *)
Theorem viewshed_failure_caught_and_logged dem gdb radius refr sid off rest w e
  (Hfail : fst (viewshed_try_body dem radius refr off (path_join gdb (output_name sid off))
                  (calc_logged sid off w)) = Raise e) :
  offsets_loop dem gdb radius refr sid (off :: rest) w =
  offsets_loop dem gdb radius refr sid rest
    (failure_logged sid off e
       (snd (viewshed_try_body dem radius refr off (path_join gdb (output_name sid off))
               (calc_logged sid off w)))) /\
  fst (offsets_loop dem gdb radius refr sid [off] w) = Ok tt.
Proof.
  unfold calc_logged in Hfail. split.
  - simpl. unfold bind at 1. unfold offset_iteration, bind, add_message, print, try_except.
    destruct (viewshed_try_body _ _ _ _ _ _) as [r w'] eqn:E. simpl in Hfail. subst r.
    reflexivity.
  - simpl. unfold offset_iteration, bind, add_message, print, try_except, ret.
    destruct (viewshed_try_body _ _ _ _ _ _) as [r w'] eqn:E. simpl in Hfail. subst r.
    unfold viewshed_handler, bind, add_error, print. reflexivity.
Qed.

(** C8: every [Viewshed2] call of a run of [generate_individual_viewsheds]
    passes a refractivity coefficient of exactly 0.13 when refraction is
    requested and 0 otherwise, and a surface offset of 0. *)
Theorem viewshed_refraction_and_surface_offset dem observer_layer offsets radius refr w :
  exists d,
    trace (snd (generate_individual_viewsheds dem observer_layer offsets radius refr w))
      = trace w ++ d /\ Forall (refraction_ok refr) d.
Proof.
  apply extends_generate.
  - intros ev H _ _; destruct ev; simpl in *; auto; discriminate.
  - intros off lo; simpl; split; [destruct refr|]; reflexivity.
  - intros r; exact I.
  - intros p r; exact I.
Qed.

(** C10: with neither a workspace nor a scratch geodatabase set,
    [generate_individual_viewsheds] raises [RuntimeError] and leaves the
    world exactly as it was: no call was made, the observer layer is
    unchanged. *)
Theorem generate_without_gdb_raises dem observer_layer offsets radius refr w
  (Hws : truthy (env_workspace w) = false) (Hsc : truthy (env_scratchGDB w) = false) :
  generate_individual_viewsheds dem observer_layer offsets radius refr w
    = (Raise (RuntimeError "No current geodatabase is set."), w).
Proof.
  unfold generate_individual_viewsheds, bind, get_world, py_or.
  rewrite Hws, Hsc. reflexivity.
Qed.

(** C2: when the offset-list parameter is missing or empty, the tool run
    raises; the only calls it makes are the two logging calls of its
    handler, so no analysis call happens. *)
Theorem main_without_offsets_raises w (Hoff : nth 2 (params w) "" = "") :
  exists e, main w =
    (Raise e, log (EvPrint (MsgScriptFailed e)) (log (EvAddError (MsgScriptFailed e)) w)).
Proof.
  destruct (main_body_rejects w) as [e He]; [auto |].
  exists e. apply main_logs_rejection, He.
Qed.

(** C7: when the DEM or the observer-layer parameter is missing, the tool
    run raises without any analysis: the error is logged with [AddError]
    and [print] and then re-raised; nothing else happens. *)
Theorem main_without_inputs_raises w
  (Hmiss : nth 0 (params w) "" = "" \/ nth 1 (params w) "" = "") :
  exists e, main w =
    (Raise e, log (EvPrint (MsgScriptFailed e)) (log (EvAddError (MsgScriptFailed e)) w)).
Proof.
  destruct (main_body_rejects w) as [e He]; [tauto |].
  exists e. apply main_logs_rejection, He.
Qed.

(** C4: for an observer layer without a SiteID field, the run adds the
    field and sets it, in each row, to the row's OBJECTID, with exactly one
    [updateRow] call per row; for a layer that has the field, the table is
    left unchanged and no row is updated.  (The set-up calls are assumed to
    succeed and a geodatabase to be set.) *)
Theorem siteid_field_added_and_populated_once dem observer_layer qs radius refr w t
  (Hgdb : truthy (py_or (env_workspace w) (env_scratchGDB w)) = true)
  (Ht : lookup observer_layer (tables w) = Some t)
  (Hsetup : forall w' ev, setup_event ev = true -> ext_fails w' ev = None) :
  let w' := snd (generate_individual_viewsheds dem observer_layer (map PyFloat qs) radius refr w) in
  lookup observer_layer (tables w') = Some (table_after_setup t) /\
  row_updates (trace w') = row_updates (trace w) ++
    (if has_siteid t then []
     else map (fun r => EvUpdateRow observer_layer (populated r)) (rows t)).
Proof.
  intros w'. subst w'. unfold generate_individual_viewsheds.
  erewrite bind_ok; [| reflexivity]. cbv beta. rewrite Hgdb. cbn [negb].
  erewrite bind_ok; [| apply floats_map_PyFloat].
  destruct (ensure_siteid_spec observer_layer Hsetup t w Ht) as [w1 [E1 [E2 E3]]].
  erewrite bind_ok; [| exact E1].
  match goal with |- context [snd (?m w1)] => set (tail := m) end.
  assert (Hk : keeps_tables tail).
  { subst tail. apply keeps_bind; [apply keeps_search_cursor | intros rs].
    apply keeps_bind; [apply keeps_observers_loop | intros _].
    apply keeps_bind; [apply keeps_logging | intros _]. apply keeps_logging. }
  assert (He : extends (fun ev => is_row_update ev = false) tail).
  { assert (HP0 : forall ev, is_viewshed ev = false -> is_row_update ev = false ->
                             is_save ev = false -> is_row_update ev = false) by auto.
    subst tail. apply extends_bind.
    - apply (extends_open_cursor _ HP0); reflexivity.
    - intros rs. apply extends_bind.
      + apply (extends_observers_loop _ HP0); intros; reflexivity.
      + intros _. apply extends_bind; [apply extends_add_message; reflexivity | intros _].
        apply extends_print; reflexivity. }
  split.
  - rewrite Hk. exact E2.
  - destruct (He w1) as [d [Ed Fd]]. rewrite Ed, row_updates_none by exact Fd. exact E3.
Qed.

(** C5 (as corrected): a run that completes makes, for each pair of an
    observer row [r] (the rows of the observer layer as iterated) and an
    offset [off], in observer-major order, one [Viewshed2] call on the
    current observer's layer followed by at most one save, to the path
    [os.path.join(gdb, "vshed_<SiteID>_<int(off)>m")] of the active
    geodatabase; a pair whose analysis raised has no save. *)
Theorem completed_run_saves_at_most_one_raster_per_pair dem observer_layer qs radius refr w
  (Hok : fst (generate_individual_viewsheds dem observer_layer (map PyFloat qs) radius refr w)
           = Ok tt) :
  let w' := snd (generate_individual_viewsheds dem observer_layer (map PyFloat qs) radius refr w) in
  exists t', lookup observer_layer (tables w') = Some t' /\
    exists l, alog (trace w') = alog (trace w) ++ l /\
      loops_log dem observer_layer (current_gdb_of w) radius refr qs (rows t') l.
Proof. exact (generate_log dem observer_layer qs radius refr w Hok). Qed.

(** C6 (as corrected): in a run that completes, the [Viewshed2] calls are
    exactly one per (observer, offset) pair, the offsets iterated inside the
    observers, and each call receives [temp_observer_layer], defined on the
    observer layer by the where-clause [SiteID = <current SiteID>]; that
    layer holds every row carrying that SiteID. *)
Theorem one_analysis_call_per_leaf_on_siteid_layer dem observer_layer qs radius refr w
  (Hok : fst (generate_individual_viewsheds dem observer_layer (map PyFloat qs) radius refr w)
           = Ok tt) :
  let w' := snd (generate_individual_viewsheds dem observer_layer (map PyFloat qs) radius refr w) in
  exists t', lookup observer_layer (tables w') = Some t' /\
    viewshed_calls (trace w') = viewshed_calls (trace w) ++
      expected_calls dem observer_layer radius refr qs (rows t').
Proof.
  destruct (generate_log dem observer_layer qs radius refr w Hok) as [t' [Ht [l [Hl Hll]]]].
  exists t'. split; [exact Ht |].
  rewrite !viewshed_calls_alog, Hl, views_app, (loops_log_views _ _ _ _ _ _ _ _ Hll).
  reflexivity.
Qed.

(** C9: two offsets with the same integer truncation give the same output
    name, hence the same output path, for the same observer. *)
Theorem equal_truncation_same_output_path gdb sid o1 o2 (H : py_int o1 = py_int o2) :
  output_name sid o1 = output_name sid o2 /\
  path_join gdb (output_name sid o1) = path_join gdb (output_name sid o2).
Proof. unfold output_name. rewrite H. split; reflexivity. Qed.

(** ** Further properties of the script *)

Lemma blank_no_float str : blank str = true -> py_float_of_string str = None.
Proof.
  unfold blank, py_float_of_string. intros H.
  assert (Hd : forall l, forallb is_space l = true -> drop_spaces l = []).
  { induction l as [|c l IH]; simpl; [reflexivity |].
    intros Hc. apply andb_true_iff in Hc as [Hc Hl]. rewrite Hc. apply IH, Hl. }
  unfold strip. rewrite (Hd _ H). reflexivity.
Qed.

Lemma floats_fail l str w :
  In (PyStr str) l -> py_float_of_string str = None ->
  exists m, floats l w = (Raise (ValueError m), w).
Proof.
  intros Hin Hs. revert w; induction l as [|v l IH]; intros w; [destruct Hin |].
  cbn [floats].
  destruct v as [q|str'].
  - destruct Hin as [Heq|Hin]; [discriminate |].
    rewrite (bind_ok _ _ w q w) by reflexivity.
    destruct (IH Hin w) as [m E]. exists m. apply bind_raise, E.
  - destruct (py_float_of_string str') as [q|] eqn:E'.
    + destruct Hin as [Heq|Hin]; [injection Heq as ->; congruence |].
      rewrite (bind_ok _ _ w q w) by (simpl; rewrite E'; reflexivity).
      destruct (IH Hin w) as [m E]. exists m. apply bind_raise, E.
    + eexists. apply bind_raise. simpl. rewrite E'. reflexivity.
Qed.

Lemma main_body_cases w :
  (exists e, main_body w = (Raise e, w)) \/
  exists qs r, main_body w =
    generate_individual_viewsheds (nth 0 (params w) "") (nth 1 (params w) "")
      (map PyFloat qs) r (param_bool w)
      (set_workspace_to (py_or (env_workspace w) (env_scratchGDB w)) w).
Proof.
  unfold main_body, bind, get_parameter_as_text, get_parameter_4, ret.
  destruct (py_float_pure (PyStr (nth 3 (params w) "")) w) as [[r|e] E]; rewrite E;
    [| left; eexists; reflexivity].
  match goal with |- context [floats ?l w] => destruct (floats_pure l w) as [[qs|e] Ef] end;
    rewrite Ef; [| left; eexists; reflexivity].
  destruct (orb _ _); [left; eexists; reflexivity |].
  destruct qs as [|q qs]; [left; eexists; reflexivity |].
  right. exists (q :: qs), r. reflexivity.
Qed.

(** X1: a non-empty offset-list parameter with a blank piece (e.g. "2;",
    "2;;10" or "2; ;10") makes the tool run raise; it only logs the error
    and re-raises, before any other call. *)
Theorem main_bad_offset_raises w str
  (Hne : nth 2 (params w) "" <> "")
  (Hin : In str (split_on ";"%char (nth 2 (params w) "")))
  (Hbad : blank str = true) :
  exists e, main w =
    (Raise e, log (EvPrint (MsgScriptFailed e)) (log (EvAddError (MsgScriptFailed e)) w)).
Proof.
  assert (He : exists e, main_body w = (Raise e, w)).
  { unfold main_body, bind, get_parameter_as_text, get_parameter_4, ret.
    destruct (py_float_pure (PyStr (nth 3 (params w) "")) w) as [[r|e] E]; rewrite E;
      [| eexists; reflexivity].
    apply String.eqb_neq in Hne. rewrite Hne.
    destruct (floats_fail (map PyStr (split_on ";"%char (nth 2 (params w) ""))) str w)
      as [m Ef]; [apply in_map; exact Hin | apply blank_no_float, Hbad |].
    rewrite Ef. eexists; reflexivity. }
  destruct He as [e He]. exists e. apply main_logs_rejection, He.
Qed.

(** X2: a missing or blank outer-radius parameter makes the tool run
    raise; it only logs the error and re-raises. *)
Theorem main_bad_radius_raises w
  (Hbad : blank (nth 3 (params w) "") = true) :
  exists e, main w =
    (Raise e, log (EvPrint (MsgScriptFailed e)) (log (EvAddError (MsgScriptFailed e)) w)).
Proof.
  assert (He : exists e, main_body w = (Raise e, w)).
  { unfold main_body, bind, get_parameter_as_text, get_parameter_4, ret. simpl py_float.
    rewrite (blank_no_float _ Hbad). eexists; reflexivity. }
  destruct He as [e He]. exists e. apply main_logs_rejection, He.
Qed.

(** X3: called with a blank offset string (e.g. ""),
    [generate_individual_viewsheds] raises [ValueError] before any call:
    the observer layer and the rest of the world are unchanged. *)
Theorem generate_bad_offset_raises_untouched dem observer_layer offsets radius refr w str
  (Hgdb : truthy (py_or (env_workspace w) (env_scratchGDB w)) = true)
  (Hin : In (PyStr str) offsets) (Hbad : blank str = true) :
  exists m, generate_individual_viewsheds dem observer_layer offsets radius refr w
              = (Raise (ValueError m), w).
Proof.
  unfold generate_individual_viewsheds.
  erewrite bind_ok; [| reflexivity]. cbv beta. rewrite Hgdb. cbn [negb].
  destruct (floats_fail offsets str w Hin (blank_no_float _ Hbad)) as [m E].
  exists m. apply bind_raise, E.
Qed.


(** X5: every [Viewshed2] call of a tool run passes the refractivity that
    parameter 4 asks for (0.13 or 0) and a surface offset of 0. *)
Theorem main_refraction_from_parameter w :
  exists d, trace (snd (main w)) = trace w ++ d /\ Forall (refraction_ok (param_bool w)) d.
Proof.
  destruct (main_body_cases w) as [[e He] | [qs [r Hg]]].
  - rewrite (main_logs_rejection w e He). cbn [snd trace log].
    eexists; split; [rewrite <- app_assoc; reflexivity | repeat constructor].
  - unfold main, try_except. rewrite Hg.
    destruct (extends_generate (refraction_ok (param_bool w)))
      with (dem := nth 0 (params w) "") (observer_layer := nth 1 (params w) "")
           (offsets := map PyFloat qs) (radius := r) (refr := param_bool w)
           (w := set_workspace_to (py_or (env_workspace w) (env_scratchGDB w)) w)
      as [d [Ed Fd]].
    + intros ev H _ _; destruct ev; simpl in *; auto; discriminate.
    + intros off lo; simpl; split; [destruct (param_bool w)|]; reflexivity.
    + intros; exact I.
    + intros; exact I.
    + destruct (generate_individual_viewsheds _ _ _ _ _ _) as [[a|e] w'];
        cbn [snd trace log] in Ed |- *.
      * exists d; split; [exact Ed | exact Fd].
      * exists (d ++ [EvAddError (MsgScriptFailed e); EvPrint (MsgScriptFailed e)]).
        unfold bind, add_error, print, raise, call, ret. cbn [snd trace log].
        unfold set_workspace_to in Ed. cbn [trace] in Ed.
        rewrite Ed, <- !app_assoc. split; [reflexivity |].
        apply Forall_app; split; [exact Fd | repeat constructor].
Qed.

(** *** Layers: the set-up leaves them alone *)

Lemma keeps_layers_bind {A B} (m : M A) (k : A -> M B) :
  keeps layers m -> (forall a, keeps layers (k a)) -> keeps layers (bind m k).
Proof.
  intros Hm Hk w. unfold bind. specialize (Hm w).
  destruct (m w) as [[a|e] w'] eqn:Em; simpl in *; [rewrite Hk |]; exact Hm.
Qed.

Lemma keeps_layers_call {A} ev (eff : M A) : keeps layers eff -> keeps layers (call ev eff).
Proof. intros He w. unfold call. destruct (ext_fails w ev); [reflexivity | exact (He (log ev w))]. Qed.

Lemma keeps_layers_populate_loop layer rs i : keeps layers (populate_loop layer rs i).
Proof.
  revert i; induction rs as [|r rs IH]; intros i; simpl; [intros w; reflexivity |].
  apply keeps_layers_bind; [| intros; apply IH].
  apply keeps_layers_call. intros w. simpl. destruct (lookup layer (tables w)); reflexivity.
Qed.

Lemma keeps_layers_ensure_siteid layer : keeps layers (ensure_siteid layer).
Proof.
  unfold ensure_siteid.
  apply keeps_layers_bind;
    [apply keeps_layers_call; intros w; simpl; destruct (lookup layer (tables w)); reflexivity
    | intros flds].
  destruct (existsb _ _); [intros w; reflexivity |].
  apply keeps_layers_bind; [intros w; reflexivity | intros _].
  apply keeps_layers_bind;
    [apply keeps_layers_call; intros w; simpl; destruct (lookup layer (tables w)); reflexivity
    | intros _].
  apply keeps_layers_bind;
    [apply keeps_layers_call; intros w; simpl; destruct (lookup layer (tables w)); reflexivity
    | intros rs].
  apply keeps_layers_bind; [apply keeps_layers_populate_loop | intros _].
  intros w; reflexivity.
Qed.

Lemma assoc_del_idem {A} k (l : list (string * A)) : assoc_del k (assoc_del k l) = assoc_del k l.
Proof.
  induction l as [|[k' v] l IH]; [reflexivity |]. unfold assoc_del in *. simpl.
  destruct (String.eqb k k') eqn:E; simpl; [exact IH | rewrite E; simpl; rewrite IH; reflexivity].
Qed.

Lemma assoc_del_set {A} k (v : A) l : assoc_del k (assoc_set k v l) = assoc_del k l.
Proof.
  unfold assoc_set. unfold assoc_del at 1. simpl. rewrite String.eqb_refl. simpl.
  apply assoc_del_idem.
Qed.

Lemma observers_loop_layers dem observer_layer gdb radius refr offs rs w :
  fst (observers_loop dem observer_layer gdb radius refr offs rs w) = Ok tt ->
  layers (snd (observers_loop dem observer_layer gdb radius refr offs rs w)) =
    match rs with [] => layers w | _ :: _ => assoc_del temp_layer (layers w) end.
Proof.
  revert w; induction rs as [|r rs IH]; intros w Hok; simpl in *; [reflexivity |].
  destruct (make_feature_layer observer_layer temp_layer (where_clause (siteid r)) w)
    as [[[]|e] w1] eqn:E1;
    [| rewrite (bind_raise _ _ _ _ _ E1) in Hok; discriminate].
  rewrite (bind_ok _ _ _ _ _ E1) in Hok |- *.
  assert (L1 : layers w1 = assoc_set temp_layer (mkLayer observer_layer (where_clause (siteid r)))
                             (layers w)).
  { revert E1; unfold make_feature_layer, call. destruct (ext_fails w _); [discriminate |].
    intros H; injection H as <-. reflexivity. }
  destruct (make_feature_layer_ok _ _ _ _ _ E1) as [Hl1 _].
  destruct (offsets_loop_log dem gdb radius refr _ (siteid r) offs w1 Hl1) as [H1 [H2 _]].
  destruct (offsets_loop dem gdb radius refr (siteid r) offs w1) as [x w2] eqn:E2.
  cbn [fst snd] in *. subst x.
  rewrite (bind_ok _ _ _ _ _ E2) in Hok |- *.
  destruct (delete temp_layer w2) as [[[]|e] w3] eqn:E3;
    [| rewrite (bind_raise _ _ _ _ _ E3) in Hok; discriminate].
  rewrite (bind_ok _ _ _ _ _ E3) in Hok |- *.
  assert (L3 : layers w3 = assoc_del temp_layer (layers w)).
  { revert E3; unfold delete, call. destruct (ext_fails w2 _); [discriminate |].
    intros H; injection H as <-. cbn [layers set_layers log].
    rewrite H2, L1. apply assoc_del_set. }
  rewrite (IH w3 Hok), L3. destruct rs; [reflexivity | apply assoc_del_idem].
Qed.

(** *** The steps of a completed run *)

Lemma generate_ok_steps dem observer_layer offsets radius refr w :
  fst (generate_individual_viewsheds dem observer_layer offsets radius refr w) = Ok tt ->
  exists qs w1 t1 w3,
    floats offsets w = (Ok qs, w) /\
    ensure_siteid observer_layer w = (Ok tt, w1) /\
    lookup observer_layer (tables w1) = Some t1 /\
    observers_loop dem observer_layer (current_gdb_of w) radius refr qs (rows t1)
      (log (EvSearchCursor observer_layer ["SiteID"; "SHAPE@"]) w1) = (Ok tt, w3) /\
    snd (generate_individual_viewsheds dem observer_layer offsets radius refr w) =
      log (EvPrint MsgAllDone) (log (EvAddMessage MsgAllDone) w3).
Proof.
  intros Hok. unfold generate_individual_viewsheds in *.
  rewrite (bind_ok _ _ _ _ _ (eq_refl : get_world w = (Ok w, w))) in Hok |- *. cbv beta in *.
  unfold current_gdb_of.
  destruct (negb (truthy _)); [discriminate |].
  destruct (floats_pure offsets w) as [[qs|e] Ef];
    [| rewrite (bind_raise _ _ _ _ _ Ef) in Hok; discriminate].
  rewrite (bind_ok _ _ _ _ _ Ef) in Hok |- *.
  destruct (ensure_siteid observer_layer w) as [[[]|e] w1] eqn:E1;
    [| rewrite (bind_raise _ _ _ _ _ E1) in Hok; discriminate].
  rewrite (bind_ok _ _ _ _ _ E1) in Hok |- *.
  destruct (search_cursor observer_layer ["SiteID"; "SHAPE@"] w1) as [[rs|e] w2] eqn:E2;
    [| rewrite (bind_raise _ _ _ _ _ E2) in Hok; discriminate].
  assert (Hw2 : exists t1, lookup observer_layer (tables w1) = Some t1 /\ rs = rows t1 /\
                 w2 = log (EvSearchCursor observer_layer ["SiteID"; "SHAPE@"]) w1).
  { revert E2. unfold search_cursor, open_cursor, call.
    destruct (ext_fails w1 _); [discriminate |]. cbn [tables log].
    destruct (lookup observer_layer (tables w1)) as [t1|]; [| discriminate].
    intros H; injection H as <- <-. eauto. }
  destruct Hw2 as [t1 [Ht1 [-> ->]]].
  rewrite (bind_ok _ _ _ _ _ E2) in Hok |- *. cbv beta in Hok |- *.
  match goal with |- context [bind (observers_loop ?d ?o ?g ?ra ?re ?of ?r0) _ ?w0] =>
    destruct (observers_loop d o g ra re of r0 w0) as [[[]|e] w3] eqn:E3 end;
    [| rewrite (bind_raise _ _ _ _ _ E3) in Hok; discriminate].
  exists qs, w1, t1, w3. repeat split; try assumption.
  rewrite (bind_ok _ _ _ _ _ E3). reflexivity.
Qed.

(** *** Runs on which no call fails *)

Section NoFailure.

Hypothesis Hnf : forall w ev, ext_fails w ev = None.

Lemma offset_iteration_nofail dem observer_layer gdb radius refr r off w :
  lookup temp_layer (layers w) = Some (observer_layer_of observer_layer r) ->
  exists w', offset_iteration dem gdb radius refr (siteid r) off w = (Ok tt, w') /\
    layers w' = layers w /\
    alog (trace w') = alog (trace w) ++ pair_log dem observer_layer gdb radius refr r off.
Proof.
  intros Hl.
  unfold offset_iteration, viewshed_try_body, try_except, bind, add_message, print,
    viewshed2, save, call.
  cbn [layers log in_observer_features leaf_args]. rewrite Hl, !Hnf.
  eexists; split; [reflexivity |]. cbn [layers trace log set_rasters]. split; [reflexivity |].
  rewrite !alog_snoc. cbn [aev_of]. rewrite !app_nil_r, <- !app_assoc. reflexivity.
Qed.

Lemma offsets_loop_nofail dem observer_layer gdb radius refr r offs w :
  lookup temp_layer (layers w) = Some (observer_layer_of observer_layer r) ->
  layers (snd (offsets_loop dem gdb radius refr (siteid r) offs w)) = layers w /\
  alog (trace (snd (offsets_loop dem gdb radius refr (siteid r) offs w))) =
    alog (trace w) ++ flat_map (pair_log dem observer_layer gdb radius refr r) offs.
Proof.
  revert w; induction offs as [|off offs IH]; intros w Hl; simpl.
  - split; [reflexivity | rewrite app_nil_r; reflexivity].
  - destruct (offset_iteration_nofail dem observer_layer gdb radius refr r off w Hl)
      as [w1 [E [L1 A1]]].
    rewrite (bind_ok _ _ _ _ _ E).
    rewrite <- L1 in Hl. destruct (IH _ Hl) as [IH1 IH2].
    split; [rewrite IH1; exact L1 |].
    rewrite IH2, A1, <- app_assoc. reflexivity.
Qed.

Lemma observers_loop_nofail dem observer_layer gdb radius refr offs rs w :
  exists w', observers_loop dem observer_layer gdb radius refr offs rs w = (Ok tt, w') /\
    alog (trace w') = alog (trace w) ++
      flat_map (fun r => flat_map (pair_log dem observer_layer gdb radius refr r) offs) rs.
Proof.
  revert w; induction rs as [|r rs IH]; intros w; simpl.
  - exists w; split; [reflexivity | rewrite app_nil_r; reflexivity].
  - set (w1 := set_layers (assoc_set temp_layer (observer_layer_of observer_layer r) (layers w))
                 (log (EvMakeFeatureLayer observer_layer temp_layer (where_clause (siteid r))) w)).
    assert (E1 : make_feature_layer observer_layer temp_layer (where_clause (siteid r)) w
                 = (Ok tt, w1)) by (unfold make_feature_layer, call; rewrite Hnf; reflexivity).
    rewrite (bind_ok _ _ _ _ _ E1).
    assert (Hl1 : lookup temp_layer (layers w1) = Some (observer_layer_of observer_layer r)).
    { subst w1. cbn [layers set_layers]. apply lookup_assoc_set. }
    destruct (offsets_loop_nofail dem observer_layer gdb radius refr r offs w1 Hl1) as [_ H2].
    pose proof (offsets_loop_ok dem gdb radius refr (siteid r) offs w1) as H1.
    destruct (offsets_loop dem gdb radius refr (siteid r) offs w1) as [x w2] eqn:E2.
    cbn [fst snd] in *. subst x.
    rewrite (bind_ok _ _ _ _ _ E2).
    assert (E3 : delete temp_layer w2 = (Ok tt, set_layers (assoc_del temp_layer (layers w2))
                                          (log (EvDelete temp_layer) w2)))
      by (unfold delete, call; rewrite Hnf; reflexivity).
    rewrite (bind_ok _ _ _ _ _ E3).
    destruct (IH (set_layers (assoc_del temp_layer (layers w2))
                   (log (EvDelete temp_layer) w2))) as [w' [E' H']].
    exists w'. split; [exact E' |].
    rewrite H'. cbn [trace set_layers log]. rewrite alog_snoc, app_nil_r, H2.
    subst w1. cbn [trace set_layers log]. rewrite alog_snoc, app_nil_r, <- !app_assoc.
    reflexivity.
Qed.

Lemma ensure_siteid_alog observer_layer w :
  alog (trace (snd (ensure_siteid observer_layer w))) = alog (trace w).
Proof.
  assert (HP0 : forall ev, is_viewshed ev = false -> is_row_update ev = false ->
                           is_save ev = false -> aev_of ev = []).
  { intros ev H1 H2 H3; destruct ev; try discriminate; reflexivity. }
  destruct (extends_ensure_siteid _ HP0 observer_layer (fun _ => eq_refl) w) as [d [Ed Fd]].
  rewrite Ed, alog_app.
  assert (alog d = []) as ->; [| apply app_nil_r].
  clear - Fd. induction Fd as [|ev d Hev Fd IHd]; [reflexivity |].
  unfold alog in *; simpl; rewrite Hev; exact IHd.
Qed.

End NoFailure.

(** X6: a completed run of [generate_individual_viewsheds] ends with the
    message "All viewsheds generated successfully." ([AddMessage], then
    [print]), whatever the outcome of its analysis calls. *)
Theorem completed_run_reports_success dem observer_layer offsets radius refr w
  (Hok : fst (generate_individual_viewsheds dem observer_layer offsets radius refr w) = Ok tt) :
  exists w3, snd (generate_individual_viewsheds dem observer_layer offsets radius refr w) =
    log (EvPrint MsgAllDone) (log (EvAddMessage MsgAllDone) w3).
Proof.
  destruct (generate_ok_steps _ _ _ _ _ w Hok) as [qs [w1 [t1 [w3 [_ [_ [_ [_ E]]]]]]]].
  exists w3. exact E.
Qed.

(** X7: a completed run of [generate_individual_viewsheds] deletes the
    temporary layer "temp_observer_layer" (when the observer table has rows)
    and leaves every other feature layer as it was. *)
Theorem completed_run_removes_temp_layer dem observer_layer offsets radius refr w
  (Hok : fst (generate_individual_viewsheds dem observer_layer offsets radius refr w) = Ok tt) :
  exists t, lookup observer_layer
              (tables (snd (generate_individual_viewsheds dem observer_layer offsets radius refr w)))
            = Some t /\
    layers (snd (generate_individual_viewsheds dem observer_layer offsets radius refr w)) =
      match rows t with [] => layers w | _ :: _ => assoc_del temp_layer (layers w) end.
Proof.
  destruct (generate_ok_steps _ _ _ _ _ w Hok) as [qs [w1 [t1 [w3 [_ [E1 [Ht1 [E3 E]]]]]]]].
  rewrite E. exists t1. cbn [tables layers log]. split.
  - pose proof (keeps_observers_loop dem observer_layer (current_gdb_of w) radius refr qs
                  (rows t1) (log (EvSearchCursor observer_layer ["SiteID"; "SHAPE@"]) w1)) as Hk.
    rewrite E3 in Hk. cbn [snd tables log] in Hk. rewrite Hk. exact Ht1.
  - pose proof (observers_loop_layers dem observer_layer (current_gdb_of w) radius refr qs
                  (rows t1) (log (EvSearchCursor observer_layer ["SiteID"; "SHAPE@"]) w1)) as Hl.
    rewrite E3 in Hl. cbn [fst snd layers log] in Hl. rewrite (Hl eq_refl).
    pose proof (keeps_layers_ensure_siteid observer_layer w) as Hk.
    rewrite E1 in Hk. cbn [snd] in Hk. rewrite Hk. reflexivity.
Qed.

(** X8: with an empty offset list, [generate_individual_viewsheds] makes no
    [Viewshed2] call and saves no raster (it may still run the SiteID
    set-up and create and delete the temporary layer per observer). *)
Theorem generate_without_offsets_no_analysis dem observer_layer radius refr w :
  exists d, trace (snd (generate_individual_viewsheds dem observer_layer [] radius refr w))
              = trace w ++ d /\
    Forall (fun ev => is_viewshed ev = false /\ is_save ev = false) d.
Proof.
  set (P := fun ev => is_viewshed ev = false /\ is_save ev = false).
  assert (HP0 : forall ev, is_viewshed ev = false -> is_row_update ev = false ->
                           is_save ev = false -> P ev) by (intros ev H1 _ H3; split; assumption).
  unfold generate_individual_viewsheds.
  rewrite (bind_ok _ _ _ _ _ (eq_refl : get_world w = (Ok w, w))). cbv beta.
  destruct (negb _); [exists []; split; [rewrite app_nil_r; reflexivity | constructor] |].
  rewrite (bind_ok _ _ _ _ _ (eq_refl : floats [] w = (Ok [], w))).
  match goal with |- exists d, trace (snd (?m w)) = _ /\ _ =>
    enough (Hm : extends P m) by apply Hm end.
  apply extends_bind; [apply (extends_ensure_siteid P HP0); intros r; split; reflexivity | intros _].
  apply extends_bind; [apply (extends_open_cursor _ HP0); reflexivity | intros rs].
  apply extends_bind.
  - induction rs as [|r rs IH]; simpl; [apply extends_ret |].
    apply extends_bind; [apply (extends_make_feature_layer P HP0) | intros _].
    apply extends_bind; [apply extends_ret | intros _].
    apply extends_bind; [apply (extends_delete P HP0) | intros _]. exact IH.
  - intros _. apply extends_bind; [apply extends_add_message; split; reflexivity | intros _].
    apply extends_print; split; reflexivity.
Qed.

(** X9: when no arcpy call fails and the observer layer has no SiteID
    field, a run with a set geodatabase and finite float offsets (NaN and
    the infinities, on which [int(offset)] raises, are outside [Q]) completes, and its analysis log is,
    observer by observer (in table order, SiteID taken from OBJECTID) and
    offset by offset, the [Viewshed2] call on that observer's layer followed
    by the save to [os.path.join(gdb, "vshed_<OBJECTID>_<int(offset)>m")]. *)
Theorem no_failure_run_saves_every_pair dem observer_layer qs radius refr w t
  (Hnf : forall w ev, ext_fails w ev = None)
  (Hgdb : truthy (py_or (env_workspace w) (env_scratchGDB w)) = true)
  (Ht : lookup observer_layer (tables w) = Some t)
  (Hno : has_siteid t = false) :
  fst (generate_individual_viewsheds dem observer_layer (map PyFloat qs) radius refr w) = Ok tt /\
  alog (trace (snd (generate_individual_viewsheds dem observer_layer (map PyFloat qs) radius refr w)))
    = alog (trace w) ++
      flat_map (fun r => flat_map (fun off =>
          [AView (leaf_args dem radius refr off)
                 (Some (mkLayer observer_layer (where_clause (Some (objectid r)))));
           ASave (path_join (current_gdb_of w) (output_name (Some (objectid r)) off))]) qs)
        (rows t).
Proof.
  unfold generate_individual_viewsheds.
  rewrite (bind_ok _ _ _ _ _ (eq_refl : get_world w = (Ok w, w))). cbv beta.
  rewrite Hgdb. cbn [negb].
  rewrite (bind_ok _ _ _ _ _ (floats_map_PyFloat qs w)).
  destruct (ensure_siteid_spec observer_layer (fun w ev _ => Hnf w ev) t w Ht)
    as [w1 [E1 [Ht1 _]]].
  pose proof (ensure_siteid_alog observer_layer w) as Ha1. rewrite E1 in Ha1. cbn [snd] in Ha1.
  rewrite (bind_ok _ _ _ _ _ E1).
  assert (E2 : search_cursor observer_layer ["SiteID"; "SHAPE@"] w1 =
    (Ok (rows (table_after_setup t)), log (EvSearchCursor observer_layer ["SiteID"; "SHAPE@"]) w1))
    by (unfold search_cursor, open_cursor, call; rewrite Hnf; cbn [tables log]; rewrite Ht1;
        reflexivity).
  rewrite (bind_ok _ _ _ _ _ E2). cbv beta.
  destruct (observers_loop_nofail Hnf dem observer_layer (current_gdb_of w) radius refr qs
              (rows (table_after_setup t)) (log (EvSearchCursor observer_layer ["SiteID"; "SHAPE@"]) w1))
    as [w3 [E3 H3]].
  unfold current_gdb_of in E3, H3 |- *.
  rewrite (bind_ok _ _ _ _ _ E3).
  split; [reflexivity |].
  cbn [snd bind add_message print trace log]. rewrite !alog_snoc, H3.
  cbn [aev_of trace log]. rewrite alog_snoc, Ha1. cbn [aev_of]. rewrite !app_nil_r.
  f_equal. unfold table_after_setup. rewrite Hno. cbn [rows].
  rewrite !flat_map_concat_map, map_map. reflexivity.
Qed.

End Script.

Lemma str_app_assoc a b c :
  String.append (String.append a b) c = String.append a (String.append b c).
Proof. induction a as [|ch a IH]; simpl; [reflexivity | rewrite IH; reflexivity]. Qed.

(** C3: every generated output path ends in ["_" ++ str(int(offset)) ++ "m"];
    a tool run with offsets "2;10" over two observers saves its rasters
    under names ending in "_2m" and "_10m". *)
Theorem output_names_end_in_truncated_offset :
  (forall gdb sid off, exists prefix,
     path_join gdb (output_name sid off) =
     String.append prefix (String.append "_" (String.append (z_to_string (py_int off)) "m"))) /\
  saved_paths (trace (snd (main engine_ok (w_tool "2;10" "dem" "obs")))) =
    ["g.gdb/vshed_1_2m"; "g.gdb/vshed_1_10m"; "g.gdb/vshed_2_2m"; "g.gdb/vshed_2_10m"].
Proof.
  split; [| vm_compute; reflexivity].
  intros gdb sid off. unfold output_name.
  set (tail := String.append "_" (String.append (z_to_string (py_int off)) "m")).
  unfold path_join. cbn [String.append].
  destruct (String.eqb gdb "").
  - exists (String.append "vshed_" (py_str_siteid sid)). rewrite str_app_assoc. reflexivity.
  - destruct (String.eqb (substring (String.length gdb - 1) 1 gdb) "/").
    + exists (String.append gdb (String.append "vshed_" (py_str_siteid sid))).
      rewrite !str_app_assoc. reflexivity.
    + exists (String.append gdb (String.append "/" (String.append "vshed_" (py_str_siteid sid)))).
      rewrite !str_app_assoc. reflexivity.
Qed.

(** ** Witnesses and counterexamples *)

(** C1 at a run whose [Viewshed2] call fails for observer 1 at offset 2. *)
Lemma viewshed_failure_caught_and_logged_witness :
  let e := ExecuteError "ERROR 999999: Error executing function." in
  fst (viewshed_try_body engine_viewshed_fails "dem" 100 false 2
         (path_join "g.gdb" (output_name (Some 1%Z) 2)) (calc_logged (Some 1%Z) 2 w_plain))
    = Raise e /\
  offsets_loop engine_viewshed_fails "dem" "g.gdb" 100 false (Some 1%Z) [2; 10] w_plain =
  offsets_loop engine_viewshed_fails "dem" "g.gdb" 100 false (Some 1%Z) [10]
    (failure_logged (Some 1%Z) 2 e
       (snd (viewshed_try_body engine_viewshed_fails "dem" 100 false 2
               (path_join "g.gdb" (output_name (Some 1%Z) 2))
               (calc_logged (Some 1%Z) 2 w_plain)))) /\
  fst (offsets_loop engine_viewshed_fails "dem" "g.gdb" 100 false (Some 1%Z) [2] w_plain)
    = Ok tt.
Proof.
  intros e. split; [vm_compute; reflexivity |].
  apply (viewshed_failure_caught_and_logged engine_viewshed_fails "dem" "g.gdb" 100 false
           (Some 1%Z) 2 [10] w_plain e).
  vm_compute; reflexivity.
Defined.

(** C2 at a tool run with an empty offset list. *)
Lemma main_without_offsets_raises_witness :
  nth 2 (params (w_tool "" "dem" "obs")) "" = "" /\
  exists e, main engine_ok (w_tool "" "dem" "obs") =
    (Raise e, log (EvPrint (MsgScriptFailed e))
                (log (EvAddError (MsgScriptFailed e)) (w_tool "" "dem" "obs"))).
Proof.
  split; [reflexivity |].
  apply (main_without_offsets_raises engine_ok (w_tool "" "dem" "obs")). reflexivity.
Defined.

(** C4 at the layer without a SiteID field. *)
Lemma siteid_field_added_and_populated_once_witness :
  truthy (py_or (env_workspace w_plain) (env_scratchGDB w_plain)) = true /\
  lookup "obs" (tables w_plain) = Some obs_plain /\
  (forall w' ev, setup_event ev = true -> engine_ok w' ev = None) /\
  let w' := snd (generate_individual_viewsheds engine_ok "dem" "obs" (map PyFloat [2; 10])
                   100 false w_plain) in
  lookup "obs" (tables w') = Some (table_after_setup obs_plain) /\
  row_updates (trace w') = row_updates (trace w_plain) ++
    (if has_siteid obs_plain then []
     else map (fun r => EvUpdateRow "obs" (populated r)) (rows obs_plain)).
Proof.
  split; [reflexivity |]. split; [reflexivity |]. split; [intros; reflexivity |].
  apply (siteid_field_added_and_populated_once engine_ok "dem" "obs" [2; 10] 100 false
           w_plain obs_plain); [reflexivity | reflexivity | intros; reflexivity].
Defined.

(** C5 (corrected) at a completed run. *)
Lemma completed_run_saves_at_most_one_raster_per_pair_witness :
  fst (generate_individual_viewsheds engine_ok "dem" "obs" (map PyFloat [2; 10]) 100 false w_plain)
    = Ok tt /\
  let w' := snd (generate_individual_viewsheds engine_ok "dem" "obs" (map PyFloat [2; 10])
                   100 false w_plain) in
  exists t', lookup "obs" (tables w') = Some t' /\
    exists l, alog (trace w') = alog (trace w_plain) ++ l /\
      loops_log "dem" "obs" (current_gdb_of w_plain) 100 false [2; 10] (rows t') l.
Proof.
  split; [vm_compute; reflexivity |].
  apply (completed_run_saves_at_most_one_raster_per_pair engine_ok). vm_compute; reflexivity.
Defined.

(** C5: a run whose analysis calls all fail completes without writing any
    raster, although the layer has two observers and one offset is given. *)
Lemma completed_run_without_rasters :
  fst (generate_individual_viewsheds engine_viewshed_fails "dem" "obs" [PyFloat 2] 100 false
         w_plain) = Ok tt /\
  rasters (snd (generate_individual_viewsheds engine_viewshed_fails "dem" "obs" [PyFloat 2]
                  100 false w_plain)) = [].
Proof. split; vm_compute; reflexivity. Defined.

(** C6 (corrected) at a completed run. *)
Lemma one_analysis_call_per_leaf_on_siteid_layer_witness :
  fst (generate_individual_viewsheds engine_ok "dem" "obs" (map PyFloat [2; 10]) 100 false w_plain)
    = Ok tt /\
  let w' := snd (generate_individual_viewsheds engine_ok "dem" "obs" (map PyFloat [2; 10])
                   100 false w_plain) in
  exists t', lookup "obs" (tables w') = Some t' /\
    viewshed_calls (trace w') = viewshed_calls (trace w_plain) ++
      expected_calls "dem" "obs" 100 false [2; 10] (rows t').
Proof.
  split; [vm_compute; reflexivity |].
  apply (one_analysis_call_per_leaf_on_siteid_layer engine_ok). vm_compute; reflexivity.
Defined.

(** C6: on a layer whose existing SiteID field repeats the value 1, each of
    the two analysis calls receives a layer holding both observers. *)
Lemma analysis_layer_with_two_observers :
  let w' := snd (generate_individual_viewsheds engine_ok "dem" "obs" [PyFloat 2] 100 false w_dup) in
  map (fun c => match snd c with Some ld => length (selected_rows w' ld) | None => 0%nat end)
      (viewshed_calls (trace w')) = [2%nat; 2%nat].
Proof. vm_compute; reflexivity. Defined.

(** C7 at a tool run without a DEM. *)
Lemma main_without_inputs_raises_witness :
  (nth 0 (params (w_tool "2;10" "" "obs")) "" = "" \/
   nth 1 (params (w_tool "2;10" "" "obs")) "" = "") /\
  exists e, main engine_ok (w_tool "2;10" "" "obs") =
    (Raise e, log (EvPrint (MsgScriptFailed e))
                (log (EvAddError (MsgScriptFailed e)) (w_tool "2;10" "" "obs"))).
Proof.
  split; [left; reflexivity |].
  apply (main_without_inputs_raises engine_ok (w_tool "2;10" "" "obs")). left; reflexivity.
Defined.

(** C9 at the offsets 2.0 and 2.5. *)
Lemma equal_truncation_same_output_path_witness :
  ~ (2 == Qmake 5 2)%Q /\ py_int 2 = py_int (Qmake 5 2) /\
  output_name (Some 1%Z) 2 = output_name (Some 1%Z) (Qmake 5 2) /\
  path_join "g.gdb" (output_name (Some 1%Z) 2) = path_join "g.gdb" (output_name (Some 1%Z) (Qmake 5 2)).
Proof.
  split; [vm_compute; discriminate |]. split; [reflexivity |].
  apply (equal_truncation_same_output_path "g.gdb" (Some 1%Z) 2 (Qmake 5 2)). reflexivity.
Defined.

(** The two saves of such a run go to one path: one raster remains. *)
Example offsets_2_and_2_5_share_a_raster :
  let w' := snd (generate_individual_viewsheds engine_ok "dem" "obs"
                   [PyFloat 2; PyFloat (Qmake 5 2)] 100 false
                   (world_with (Some "g.gdb") (mkTable ["OBJECTID"] [mkRow 1 None 0]) [])) in
  saved_paths (trace w') = ["g.gdb/vshed_1_2m"; "g.gdb/vshed_1_2m"] /\
  map fst (rasters w') = ["g.gdb/vshed_1_2m"].
Proof. split; vm_compute; reflexivity. Qed.

(** C10 at a world with neither a workspace nor a scratch geodatabase. *)
Lemma generate_without_gdb_raises_witness :
  truthy (env_workspace w_nogdb) = false /\ truthy (env_scratchGDB w_nogdb) = false /\
  generate_individual_viewsheds engine_ok "dem" "obs" [PyFloat 2] 100 false w_nogdb
    = (Raise (RuntimeError "No current geodatabase is set."), w_nogdb).
Proof.
  split; [reflexivity |]. split; [reflexivity |].
  apply (generate_without_gdb_raises engine_ok); reflexivity.
Defined.

(** X1 on the offsets "2;": the empty piece after the separator. *)
Lemma main_bad_offset_raises_witness :
  nth 2 (params (w_tool "2;" "dem" "obs")) "" <> "" /\
  In "" (split_on ";"%char (nth 2 (params (w_tool "2;" "dem" "obs")) "")) /\
  blank "" = true /\
  exists e, main engine_ok (w_tool "2;" "dem" "obs") =
    (Raise e, log (EvPrint (MsgScriptFailed e))
                (log (EvAddError (MsgScriptFailed e)) (w_tool "2;" "dem" "obs"))).
Proof.
  split; [discriminate |]. split; [simpl; right; left; reflexivity |].
  split; [reflexivity |].
  apply (main_bad_offset_raises engine_ok (w_tool "2;" "dem" "obs") "");
    [discriminate | simpl; right; left; reflexivity | reflexivity].
Defined.

(** X2 on the blank outer radius " ". *)
Lemma main_bad_radius_raises_witness :
  blank (nth 3 (params (world_with (Some "g.gdb") obs_plain
                                        ["dem"; "obs"; "2"; " "])) "") = true /\
  exists e, main engine_ok (world_with (Some "g.gdb") obs_plain ["dem"; "obs"; "2"; " "]) =
    (Raise e, log (EvPrint (MsgScriptFailed e)) (log (EvAddError (MsgScriptFailed e))
                (world_with (Some "g.gdb") obs_plain ["dem"; "obs"; "2"; " "]))).
Proof.
  split; [reflexivity |].
  apply (main_bad_radius_raises engine_ok
           (world_with (Some "g.gdb") obs_plain ["dem"; "obs"; "2"; " "])).
  reflexivity.
Defined.

(** X3 on the offsets [2.0, ""]. *)
Lemma generate_bad_offset_raises_untouched_witness :
  truthy (py_or (env_workspace w_plain) (env_scratchGDB w_plain)) = true /\
  In (PyStr "") [PyFloat 2; PyStr ""] /\ blank "" = true /\
  exists m, generate_individual_viewsheds engine_ok "dem" "obs" [PyFloat 2; PyStr ""] 100 false
              w_plain = (Raise (ValueError m), w_plain).
Proof.
  split; [reflexivity |]. split; [simpl; right; left; reflexivity |]. split; [reflexivity |].
  apply (generate_bad_offset_raises_untouched engine_ok "dem" "obs" [PyFloat 2; PyStr ""]
           100 false w_plain "");
    [reflexivity | simpl; right; left; reflexivity | reflexivity].
Defined.


(** X6 on an engine where every [Viewshed2] call fails. *)
Lemma completed_run_reports_success_witness :
  fst (generate_individual_viewsheds engine_viewshed_fails "dem" "obs" [PyFloat 2] 100 false
         w_plain) = Ok tt /\
  exists w3, snd (generate_individual_viewsheds engine_viewshed_fails "dem" "obs" [PyFloat 2]
                    100 false w_plain) =
    log (EvPrint MsgAllDone) (log (EvAddMessage MsgAllDone) w3).
Proof.
  split; [vm_compute; reflexivity |].
  apply (completed_run_reports_success engine_viewshed_fails "dem" "obs" [PyFloat 2] 100 false
           w_plain).
  vm_compute; reflexivity.
Defined.

(** X7 on the two-point layer [obs_plain]. *)
Lemma completed_run_removes_temp_layer_witness :
  fst (generate_individual_viewsheds engine_ok "dem" "obs" [PyFloat 2] 100 false w_plain)
    = Ok tt /\
  exists t, lookup "obs"
              (tables (snd (generate_individual_viewsheds engine_ok "dem" "obs" [PyFloat 2]
                              100 false w_plain))) = Some t /\
    layers (snd (generate_individual_viewsheds engine_ok "dem" "obs" [PyFloat 2] 100 false
                   w_plain)) =
      match rows t with [] => layers w_plain | _ :: _ => assoc_del temp_layer (layers w_plain) end.
Proof.
  split; [vm_compute; reflexivity |].
  apply (completed_run_removes_temp_layer engine_ok "dem" "obs" [PyFloat 2] 100 false w_plain).
  vm_compute; reflexivity.
Defined.

(** X9 on [obs_plain] with the offsets 2 and 10. *)
Lemma no_failure_run_saves_every_pair_witness :
  (forall w ev, engine_ok w ev = None) /\
  truthy (py_or (env_workspace w_plain) (env_scratchGDB w_plain)) = true /\
  lookup "obs" (tables w_plain) = Some obs_plain /\ has_siteid obs_plain = false /\
  fst (generate_individual_viewsheds engine_ok "dem" "obs" (map PyFloat [2; 10]) 100 false
         w_plain) = Ok tt /\
  alog (trace (snd (generate_individual_viewsheds engine_ok "dem" "obs" (map PyFloat [2; 10])
                      100 false w_plain)))
    = alog (trace w_plain) ++
      flat_map (fun r => flat_map (fun off =>
          [AView (leaf_args "dem" 100 false off)
                 (Some (mkLayer "obs" (where_clause (Some (objectid r)))));
           ASave (path_join (current_gdb_of w_plain) (output_name (Some (objectid r)) off))])
          [2; 10])
        (rows obs_plain).
Proof.
  split; [intros; reflexivity |]. split; [reflexivity |]. split; [reflexivity |].
  split; [reflexivity |].
  apply (no_failure_run_saves_every_pair engine_ok "dem" "obs" [2; 10] 100 false w_plain
           obs_plain); [intros; reflexivity | reflexivity | reflexivity | reflexivity].
Defined.
